(** * compas.robots.model.joint: joints, limits, mimics and axes

    A shallow embedding of [src/compas/robots/model/joint.py].

    Python objects are records, mutation is explicit state passing (a method
    that mutates [self] returns the new object), exceptions are the [Raise]
    case of [result].  Floats are kept behind the interface [PyFloat], with
    two instances: [Binary64] (IEEE binary64, what CPython computes with) and
    [Exact] (real arithmetic, what the documentation reasons in). *)

From Stdlib Require Import ZArith List String Bool Floats Reals Lra Lia.
Import ListNotations.

Set Warnings "-inexact-float".
Set Implicit Arguments.

(** ** Exceptions and results *)

Inductive PyError : Type :=
| ValueError (msg : string)
| NotImplementedError
| AttributeError (msg : string)
| TypeError (msg : string).

Inductive result (A : Type) : Type :=
| Return (a : A)
| Raise (e : PyError).

Arguments Return {A} a.
Arguments Raise {A} e.

(** Two exceptions are told apart by their class. *)
Definition same_error_class (e1 e2 : PyError) : bool :=
  match e1, e2 with
  | ValueError _, ValueError _ => true
  | NotImplementedError, NotImplementedError => true
  | AttributeError _, AttributeError _ => true
  | TypeError _, TypeError _ => true
  | _, _ => false
  end.

(** Keyword arguments kept in an [attr] dictionary. *)
Definition kwargs : Type := list (string * string).

(** ** Floats *)

(** Python float operations: [*], [+], [-], [/], [math.sqrt], [<], [==] and
    the literals [0] and [1]. *)
Class PyFloat (F : Type) : Type := {
  f_zero : F;
  f_one : F;
  f_add : F -> F -> F;
  f_sub : F -> F -> F;
  f_mul : F -> F -> F;
  f_div : F -> F -> F;
  f_sqrt : F -> F;
  f_lt : F -> F -> bool;
  f_eqb : F -> F -> bool
}.

(** ["%f" % x] followed by [float(...)]: the value a float has after it was
    printed with six decimals and parsed again. *)
Class FloatText (F : Type) : Type := {
  reparse : F -> F
}.

Section Builtins.
Context {F : Type} {num : PyFloat F}.

(** [a > b] on floats is [b < a]. *)
Definition f_gt (a b : F) : bool := f_lt b a.

(** [a != b]. *)
Definition f_ne (a b : F) : bool := negb (f_eqb a b).

(** [min(a, b)]: the first argument unless the second is smaller. *)
Definition py_min (a b : F) : F := if f_lt b a then b else a.

(** [max(a, b)]: the first argument unless the second is greater. *)
Definition py_max (a b : F) : F := if f_gt b a then b else a.
End Builtins.

(** ** compas.geometry *)

Module Vector.
Record t (F : Type) : Type := mk { x : F; y : F; z : F }.
Arguments mk {F} x y z.
Arguments x {F} _.
Arguments y {F} _.
Arguments z {F} _.

Section Ops.
Context {F : Type} {num : PyFloat F}.

(** Modelled from the spec: [compas.geometry.Vector] is not under src/.
    [Vector.__mul__(n)] scales every component by [n] (section 2,
    "build translation-along-vector"). *)
Definition mul (v : t F) (n : F) : t F :=
  mk (f_mul (x v) n) (f_mul (y v) n) (f_mul (z v) n).

Definition zero : t F := mk f_zero f_zero f_zero.
End Ops.
End Vector.

(** Modelled from the spec: [compas.geometry.Vector] is not under src/.
    [length] is the property [Vector.length], [unitize] the method
    [Vector.unitize] ("normalized to unit length", section 4.1). *)
Class Geometry (F : Type) : Type := {
  Vector_length : Vector.t F -> F;
  Vector_unitize : Vector.t F -> Vector.t F
}.

Module Frame.
(** Modelled from the spec: [compas.geometry.Frame] is not under src/.  A
    frame is a reference point and two axes. *)
Record t (F : Type) : Type := mk { point : Vector.t F; xaxis : Vector.t F; yaxis : Vector.t F }.
Arguments mk {F} point xaxis yaxis.
Arguments point {F} _.
Arguments xaxis {F} _.
Arguments yaxis {F} _.

Section Ops.
Context {F : Type} {num : PyFloat F}.

(** Modelled from the spec: [Frame.from_euler_angles([0., 0., 0.])], the
    frame of the identity rotation at the origin. *)
Definition from_euler_angles_zero : t F :=
  mk Vector.zero (Vector.mk f_one f_zero f_zero) (Vector.mk f_zero f_one f_zero).

(** [frame.copy()]. *)
Definition copy (f : t F) : t F := mk (point f) (xaxis f) (yaxis f).

(** Modelled from the spec: [current_origin.scale(factor)] "rescales
    [current_origin]'s translation component by [factor]" (section 4.3). *)
Definition scale (f : t F) (factor : F) : t F :=
  mk (Vector.mul (point f) factor) (xaxis f) (yaxis f).
End Ops.
End Frame.

(** Modelled from the spec: [Transformation], [Rotation] and [Translation] of
    [compas.geometry] are not under src/.  A transformation is represented by
    the library call that builds it: [Transformation()] is the identity,
    [Rotation.from_axis_and_angle(axis, angle, point)] the rotation about
    [axis] through [angle] pivoting at [point], [Translation.from_vector(v)]
    the translation along [v] (sections 2 and 4.3). *)
Inductive Transformation (F : Type) : Type :=
| Transformation_identity
| Rotation_from_axis_and_angle (axis : Vector.t F) (angle : F) (point : Vector.t F)
| Translation_from_vector (v : Vector.t F).

Arguments Transformation_identity {F}.
Arguments Rotation_from_axis_and_angle {F} axis angle point.
Arguments Translation_from_vector {F} v.

(** ** ParentLink, ChildLink, Calibration, Dynamics, SafetyController *)

Module ParentLink.
Record t : Type := mk { link : string }.
End ParentLink.

Module ChildLink.
Record t : Type := mk { link : string }.
End ChildLink.

Module Calibration.
Record t (F : Type) : Type := mk { rising : F; falling : F; reference_position : F }.
End Calibration.

Module Dynamics.
Record t (F : Type) : Type := mk { damping : F; friction : F; attr : kwargs }.
End Dynamics.

Module SafetyController.
Record t (F : Type) : Type :=
  mk { k_velocity : F; k_position : F; soft_lower_limit : F; soft_upper_limit : F }.
End SafetyController.

(** ** Limit *)

Module Limit.
Record t (F : Type) : Type :=
  mk { effort : F; velocity : F; lower : F; upper : F; attr : kwargs }.
Arguments mk {F} effort velocity lower upper attr.
Arguments effort {F} _.
Arguments velocity {F} _.
Arguments lower {F} _.
Arguments upper {F} _.
Arguments attr {F} _.

Section Ops.
Context {F : Type} {num : PyFloat F}.

(** [self.lower *= factor; self.upper *= factor]. *)
Definition scale (self : t F) (factor : F) : t F :=
  let self1 := mk (effort self) (velocity self) (f_mul (lower self) factor) (upper self) (attr self) in
  mk (effort self1) (velocity self1) (lower self1) (f_mul (upper self1) factor) (attr self1).
End Ops.
End Limit.

(** ** Mimic *)

Module Mimic.
Record t (F : Type) : Type := mk { joint : string; multiplier : F; offset : F }.
Arguments mk {F} joint multiplier offset.
Arguments joint {F} _.
Arguments multiplier {F} _.
Arguments offset {F} _.

Section Ops.
Context {F : Type} {num : PyFloat F}.

(** [return self.multiplier * mimicked_joint_position + self.offset]. *)
Definition calculate_position (self : t F) (mimicked_joint_position : F) : F :=
  f_add (f_mul (multiplier self) mimicked_joint_position) (offset self).
End Ops.
End Mimic.

(** ** Axis *)

Module Axis.
Record t (F : Type) : Type := mk { x : F; y : F; z : F; attr : kwargs }.
Arguments mk {F} x y z attr.
Arguments x {F} _.
Arguments y {F} _.
Arguments z {F} _.
Arguments attr {F} _.

Section Ops.
Context {F : Type} {num : PyFloat F} {geo : Geometry F}.

(** [Axis.__init__], on the components [_parse_floats(xyz)] returns:
    the vector is unitized unless its length is zero. *)
Definition init (xyz : Vector.t F) (kw : kwargs) : t F :=
  let xyz :=
    if f_ne (Vector_length xyz) f_zero then Vector_unitize xyz else xyz in
  mk (Vector.x xyz) (Vector.y xyz) (Vector.z xyz) kw.

(** [Axis()], with the default [xyz='1 0 0']. *)
Definition default : t F := init (Vector.mk f_one f_zero f_zero) [].

(** The property [vector]. *)
Definition vector (self : t F) : Vector.t F := Vector.mk (x self) (y self) (z self).

(** The setter of [data]: the components are stored as given. *)
Definition set_data (self : t F) (x y z : F) (attr : kwargs) : t F := mk x y z attr.

(** [copy]: the components are printed with ["%f %f %f"] and handed to
    the constructor, which parses and unitizes them; [attr] is not
    passed on. *)
Definition copy {txt : FloatText F} (self : t F) : t F :=
  init (Vector.mk (reparse (x self)) (reparse (y self)) (reparse (z self))) [].
End Ops.
End Axis.

(** ** Joint *)

Module Joint.

(** The class constants [REVOLUTE] ... [PLANAR]. *)
Definition REVOLUTE : Z := 0.
Definition CONTINUOUS : Z := 1.
Definition PRISMATIC : Z := 2.
Definition FIXED : Z := 3.
Definition FLOATING : Z := 4.
Definition PLANAR : Z := 5.

Definition SUPPORTED_TYPES : list string :=
  ["revolute"; "continuous"; "prismatic"; "fixed"; "floating"; "planar"]%string.

(** [SUPPORTED_TYPES.index(s)], when [s in SUPPORTED_TYPES]. *)
Fixpoint index_of (s : string) (l : list string) : option Z :=
  match l with
  | [] => None
  | s' :: l' =>
      if String.eqb s s' then Some 0%Z
      else match index_of s l' with
           | Some i => Some (i + 1)%Z
           | None => None
           end
  end.

(** The bound methods the dispatch table of [calculate_transformation]
    holds. *)
Inductive method : Type :=
| calculate_revolute
| calculate_continuous
| calculate_prismatic
| calculate_fixed
| calculate_floating
| calculate_planar.

(** [switcher.get(self.type)]: [None] for a key the table does not hold. *)
Definition switcher (type : Z) : option method :=
  if (type =? REVOLUTE)%Z then Some calculate_revolute
  else if (type =? CONTINUOUS)%Z then Some calculate_continuous
  else if (type =? PRISMATIC)%Z then Some calculate_prismatic
  else if (type =? FIXED)%Z then Some calculate_fixed
  else if (type =? FLOATING)%Z then Some calculate_floating
  else if (type =? PLANAR)%Z then Some calculate_planar
  else None.

(** The attributes of a joint.  [_calculate_transformation] is the attribute
    [calculate_transformation] sets on its first call: [None] while the
    object does not have it ([hasattr] is false), [Some m] once it holds
    [m = switcher.get(self.type)]. *)
Record t (F : Type) : Type := mk {
  name : string;
  type : Z;
  parent : ParentLink.t;
  child : ChildLink.t;
  origin : Frame.t F;
  axis : Axis.t F;
  calibration : option (Calibration.t F);
  dynamics : option (Dynamics.t F);
  limit : option (Limit.t F);
  safety_controller : option (SafetyController.t F);
  mimic : option (Mimic.t F);
  attr : kwargs;
  child_link : option string;
  position : F;
  current_origin : Frame.t F;
  current_axis : Axis.t F;
  _calculate_transformation : option (option method)
}.
Arguments mk {F}.
Arguments name {F} _.
Arguments type {F} _.
Arguments parent {F} _.
Arguments child {F} _.
Arguments origin {F} _.
Arguments axis {F} _.
Arguments calibration {F} _.
Arguments dynamics {F} _.
Arguments limit {F} _.
Arguments safety_controller {F} _.
Arguments mimic {F} _.
Arguments attr {F} _.
Arguments child_link {F} _.
Arguments position {F} _.
Arguments current_origin {F} _.
Arguments current_axis {F} _.
Arguments _calculate_transformation {F} _.

Section Ops.
Context {F : Type} {num : PyFloat F} {geo : Geometry F}.

(** Attribute assignments. *)
Definition set_current_origin (self : t F) (v : Frame.t F) : t F :=
  mk (name self) (type self) (parent self) (child self) (origin self) (axis self)
     (calibration self) (dynamics self) (limit self) (safety_controller self)
     (mimic self) (attr self) (child_link self) (position self)
     v (current_axis self) (_calculate_transformation self).

Definition set_limit (self : t F) (v : option (Limit.t F)) : t F :=
  mk (name self) (type self) (parent self) (child self) (origin self) (axis self)
     (calibration self) (dynamics self) v (safety_controller self)
     (mimic self) (attr self) (child_link self) (position self)
     (current_origin self) (current_axis self) (_calculate_transformation self).

Definition set__calculate_transformation (self : t F) (v : option (option method)) : t F :=
  mk (name self) (type self) (parent self) (child self) (origin self) (axis self)
     (calibration self) (dynamics self) (limit self) (safety_controller self)
     (mimic self) (attr self) (child_link self) (position self)
     (current_origin self) (current_axis self) v.

(** [Joint.__init__].  [type] is a name or an index; [parent] and [child]
    are link objects or link names; [origin] and [axis] default to the
    identity frame and to [Axis()].  The message of the error for an index
    out of range is kept without the index. *)
Definition init {txt : FloatText F}
    (name : string) (type : string + Z)
    (parent : ParentLink.t + string) (child : ChildLink.t + string)
    (origin : option (Frame.t F)) (axis : option (Axis.t F))
    (calibration : option (Calibration.t F)) (dynamics : option (Dynamics.t F))
    (limit : option (Limit.t F)) (safety_controller : option (SafetyController.t F))
    (mimic : option (Mimic.t F)) (kw : kwargs) : result (t F) :=
  let type_idx :=
    match type with
    | inl s => match index_of s SUPPORTED_TYPES with
               | Some i => inr i
               | None => inl s
               end
    | inr i => inr i
    end in
  match type_idx with
  | inl s => Raise (ValueError ("Unsupported joint type: " ++ s))
  | inr i =>
      if negb ((0 <=? i)%Z && (i <? Z.of_nat (List.length SUPPORTED_TYPES))%Z)
      then Raise (ValueError "Unsupported joint type")
      else
        let parent := match parent with inl p => p | inr s => ParentLink.mk s end in
        let child := match child with inl c => c | inr s => ChildLink.mk s end in
        let origin := match origin with Some o => o | None => Frame.from_euler_angles_zero end in
        let axis := match axis with Some a => a | None => Axis.default end in
        Return (mk name i parent child origin axis calibration dynamics limit
                   safety_controller mimic kw None f_zero
                   (Frame.copy origin) (Axis.copy axis) None)
  end.

(** [calculate_continuous_transformation]. *)
Definition calculate_continuous_transformation (self : t F) (position : F)
    : result (Transformation F) :=
  Return (Rotation_from_axis_and_angle
            (Axis.vector (current_axis self)) position (Frame.point (current_origin self))).

(** [calculate_revolute_transformation]. *)
Definition calculate_revolute_transformation (self : t F) (position : F)
    : result (Transformation F) :=
  match limit self with
  | None => Raise (ValueError "Revolute joints are required to define a limit")
  | Some l =>
      let position := py_max (py_min position (Limit.upper l)) (Limit.lower l) in
      calculate_continuous_transformation self position
  end.

(** [calculate_prismatic_transformation]. *)
Definition calculate_prismatic_transformation (self : t F) (position : F)
    : result (Transformation F) :=
  match limit self with
  | None => Raise (ValueError "Prismatic joints are required to define a limit")
  | Some l =>
      let position := py_max (py_min position (Limit.upper l)) (Limit.lower l) in
      Return (Translation_from_vector (Vector.mul (Axis.vector (current_axis self)) position))
  end.

(** [calculate_fixed_transformation]. *)
Definition calculate_fixed_transformation (self : t F) (position : F)
    : result (Transformation F) :=
  Return Transformation_identity.

(** [calculate_floating_transformation]. *)
Definition calculate_floating_transformation (self : t F) (position : F)
    : result (Transformation F) :=
  Raise NotImplementedError.

(** [calculate_planar_transformation]. *)
Definition calculate_planar_transformation (self : t F) (position : F)
    : result (Transformation F) :=
  Raise NotImplementedError.

(** Calling a bound method of [self]. *)
Definition call (m : method) (self : t F) (position : F) : result (Transformation F) :=
  match m with
  | calculate_revolute => calculate_revolute_transformation self position
  | calculate_continuous => calculate_continuous_transformation self position
  | calculate_prismatic => calculate_prismatic_transformation self position
  | calculate_fixed => calculate_fixed_transformation self position
  | calculate_floating => calculate_floating_transformation self position
  | calculate_planar => calculate_planar_transformation self position
  end.

(** [calculate_transformation]: the dispatch target is looked up and stored
    on the first call, then the stored target is called.  Returns the joint
    after the call and what the call returned or raised. *)
Definition calculate_transformation (self : t F) (position : F)
    : t F * result (Transformation F) :=
  let self :=
    match _calculate_transformation self with
    | None => set__calculate_transformation self (Some (switcher (type self)))
    | Some _ => self
    end in
  match _calculate_transformation self with
  | Some (Some m) => (self, call m self position)
  | _ => (self, Raise (TypeError "'NoneType' object is not callable"))
  end.

(** [is_configurable]. *)
Definition is_configurable (self : t F) : bool :=
  negb (type self =? FIXED)%Z && match mimic self with None => true | Some _ => false end.

(** [is_scalable]: [self.type in [Joint.PLANAR, Joint.PRISMATIC]]. *)
Definition is_scalable (self : t F) : bool :=
  ((type self =? PLANAR) || (type self =? PRISMATIC))%Z.

(** [scale]: the origin is scaled first; then, for a scalable joint,
    [self.limit.scale(factor)], which raises on [None]. *)
Definition scale (self : t F) (factor : F) : t F * result unit :=
  let self := set_current_origin self (Frame.scale (current_origin self) factor) in
  if is_scalable self then
    match limit self with
    | Some l => (set_limit self (Some (Limit.scale l factor)), Return tt)
    | None => (self, Raise (AttributeError "'NoneType' object has no attribute 'scale'"))
    end
  else (self, Return tt).

End Ops.
End Joint.

(** ** The float instances *)

Section CompasVector.
Context {F : Type} {num : PyFloat F}.

(** Modelled from the spec: [compas.geometry.Vector] is not under src/.  The
    length of a vector is the square root of the sum of its squared
    components. *)
Definition length_vector (v : Vector.t F) : F :=
  f_sqrt (f_add (f_add (f_mul (Vector.x v) (Vector.x v)) (f_mul (Vector.y v) (Vector.y v)))
                (f_mul (Vector.z v) (Vector.z v))).

(** Modelled from the spec: [compas.geometry.Vector] is not under src/.
    [unitize] divides every component by the length. *)
Definition unitize (v : Vector.t F) : Vector.t F :=
  let l := length_vector v in
  Vector.mk (f_div (Vector.x v) l) (f_div (Vector.y v) l) (f_div (Vector.z v) l).

Definition compas_geometry : Geometry F :=
  {| Vector_length := length_vector; Vector_unitize := unitize |}.
End CompasVector.

(** *** IEEE binary64 *)

Module Binary64.

Definition num : PyFloat float := {|
  f_zero := 0%float;
  f_one := 1%float;
  f_add := PrimFloat.add;
  f_sub := PrimFloat.sub;
  f_mul := PrimFloat.mul;
  f_div := PrimFloat.div;
  f_sqrt := PrimFloat.sqrt;
  f_lt := PrimFloat.ltb;
  f_eqb := PrimFloat.eqb
|}.

Definition geo : Geometry float := @compas_geometry float num.

(** [n / d] rounded to the nearest integer, ties to even ([0 < d]). *)
Definition round_half_even (n d : Z) : Z :=
  let q := (n / d)%Z in
  let r := (n mod d)%Z in
  match (2 * r ?= d)%Z with
  | Lt => q
  | Gt => (q + 1)%Z
  | Eq => if Z.even q then q else (q + 1)%Z
  end.

(** The digits ["%f"] prints for the float [m * 2^e]: its value in
    millionths, correctly rounded. *)
Definition millionths (m : positive) (e : Z) : Z :=
  if (0 <=? e)%Z then (Zpos m * 1000000 * 2 ^ e)%Z
  else round_half_even (Zpos m * 1000000) (2 ^ (- e)).

(** [float(s)] for the text [s] of [n] millionths: the binary64 value
    nearest to [n / 10^6], with the sign printed. *)
Definition parse_fixed (neg : bool) (n : Z) : float :=
  match n with
  | Zpos p => SF2Prim (SFdiv prec emax (S754_finite neg p 0) (S754_finite false 1000000 0))
  | _ => if neg then (-0)%float else 0%float
  end.

(** ["%f" % x] parsed again: [nan] and [inf] print as such and come back
    unchanged. *)
Definition reparse_f (x : float) : float :=
  match Prim2SF x with
  | S754_finite s m e => parse_fixed s (millionths m e)
  | _ => x
  end.

Definition txt : FloatText float := {| reparse := reparse_f |}.

End Binary64.

(** *** Real arithmetic *)

Module Exact.

Definition num : PyFloat R := {|
  f_zero := 0%R;
  f_one := 1%R;
  f_add := Rplus;
  f_sub := Rminus;
  f_mul := Rmult;
  f_div := Rdiv;
  f_sqrt := sqrt;
  f_lt := fun a b => if Rlt_dec a b then true else false;
  f_eqb := fun a b => if Req_dec_T a b then true else false
|}.

Definition geo : Geometry R := @compas_geometry R num.

End Exact.

(** ** What the specification calls clamping *)

Section Clamp.
Context {F : Type} {num : PyFloat F}.

(** The position "clamped to the nearest bound" of [[lower, upper]], in the
    words of the specification: the upper bound above it, the lower bound
    below it, the position itself in between. *)
Definition clamp_to_bounds (position lower upper : F) : F :=
  if f_gt position upper then upper
  else if f_lt position lower then lower
  else position.
End Clamp.

(** ** Joints as the operations leave them *)

(** The stored dispatch target, when there is one, is the one of the joint's
    type: true of a joint [Joint.init] returns, and kept by every operation
    below, none of which assigns [type]. *)
Definition dispatch_consistent {F : Type} (j : Joint.t F) : Prop :=
  Joint._calculate_transformation j = None \/
  Joint._calculate_transformation j = Some (Joint.switcher (Joint.type j)).

(** ** Dictionaries *)

Module Dict.

(** The values the dictionaries of [joint.py] hold at their top level:
    strings and floats. *)
Inductive value (F : Type) : Type :=
| Str (s : string)
| Num (x : F).
Arguments Str {F} s.
Arguments Num {F} x.

(** A [dict], in insertion order. *)
Definition t (F : Type) : Type := list (string * value F).

(** What indexing or unpacking a dictionary gives: the value, [KeyError]
    for a missing key, or a value of a type the records here do not hold. *)
Inductive lookup (A : Type) : Type :=
| Found (a : A)
| KeyError (key : string)
| OtherType (key : string).
Arguments Found {A} a.
Arguments KeyError {A} key.
Arguments OtherType {A} key.

Definition bind {A B : Type} (r : lookup A) (k : A -> lookup B) : lookup B :=
  match r with
  | Found a => k a
  | KeyError key => KeyError key
  | OtherType key => OtherType key
  end.

Section Ops.
Context {F : Type} {num : PyFloat F}.

(** [d.get(k)]. *)
Fixpoint get (k : string) (d : t F) : option (value F) :=
  match d with
  | [] => None
  | (k', v) :: d' => if String.eqb k k' then Some v else get k d'
  end.

(** [d[k] = v]: an existing key keeps its place. *)
Fixpoint set (k : string) (v : value F) (d : t F) : t F :=
  match d with
  | [] => [(k, v)]
  | (k', v') :: d' => if String.eqb k k' then (k', v) :: d' else (k', v') :: set k v d'
  end.

(** [d.update(other)]. *)
Fixpoint update (d other : t F) : t F :=
  match other with
  | [] => d
  | (k, v) :: other' => update (set k v d) other'
  end.

(** The truth value of a value: a float is true unless it equals zero, a
    string unless it is empty. *)
Definition truthy (v : value F) : bool :=
  match v with
  | Num x => f_ne x f_zero
  | Str s => negb (String.eqb s "")
  end.

(** [dict(filter(lambda x: x[1], d.items()))]. *)
Definition filter_truthy (d : t F) : t F :=
  List.filter (fun kv => truthy (snd kv)) d.

(** The keyword arguments of a constructor, as a dictionary. *)
Definition of_kwargs (kw : kwargs) : t F :=
  List.map (fun kv => (fst kv, Str (snd kv))) kw.

(** [d[k]], for a key that holds a float, and for one that holds a string. *)
Definition get_num (k : string) (d : t F) : lookup F :=
  match get k d with
  | None => KeyError k
  | Some (Num x) => Found x
  | Some (Str _) => OtherType k
  end.

Definition get_str (k : string) (d : t F) : lookup string :=
  match get k d with
  | None => KeyError k
  | Some (Str s) => Found s
  | Some (Num _) => OtherType k
  end.

End Ops.
End Dict.

(** [URDFElement(tag, attributes)] of [compas.files], which is not under
    src/: an element is represented by the arguments of the call. *)
Record URDFElement (F : Type) : Type :=
  mkURDFElement { tag : string; attributes : Dict.t F }.
Arguments mkURDFElement {F} tag attributes.
Arguments tag {F} _.
Arguments attributes {F} _.

(** ** Mimic, Limit, SafetyController: data and URDF elements *)

Module MimicIO.
Section Ops.
Context {F : Type} {num : PyFloat F}.

(** [Mimic.__init__(joint, multiplier=1.0, offset=0.)]. *)
Definition init (joint : string) (multiplier offset : option F) : Mimic.t F :=
  Mimic.mk joint
           (match multiplier with Some m => m | None => f_one end)
           (match offset with Some o => o | None => f_zero end).

(** [Mimic.get_urdf_element]. *)
Definition get_urdf_element (self : Mimic.t F) : URDFElement F :=
  let attributes := [("joint"%string, Dict.Str (Mimic.joint self))] in
  let attributes :=
    if f_ne (Mimic.multiplier self) f_one
    then Dict.set "multiplier" (Dict.Num (Mimic.multiplier self)) attributes
    else attributes in
  let attributes :=
    if f_ne (Mimic.offset self) f_zero
    then Dict.set "offset" (Dict.Num (Mimic.offset self)) attributes
    else attributes in
  mkURDFElement "mimic" attributes.

(** The constructor called with an element's attributes as its keyword
    arguments. *)
Definition init_kwargs (attributes : Dict.t F) : Dict.lookup (Mimic.t F) :=
  let optional (k : string) : Dict.lookup (option F) :=
    match Dict.get k attributes with
    | None => Dict.Found None
    | Some (Dict.Num x) => Dict.Found (Some x)
    | Some (Dict.Str _) => Dict.OtherType k
    end in
  Dict.bind (Dict.get_str "joint" attributes) (fun joint =>
  Dict.bind (optional "multiplier"%string) (fun multiplier =>
  Dict.bind (optional "offset"%string) (fun offset =>
  Dict.Found (init joint multiplier offset)))).

(** The property [data]. *)
Definition data (self : Mimic.t F) : Dict.t F :=
  [("joint"%string, Dict.Str (Mimic.joint self));
   ("multiplier"%string, Dict.Num (Mimic.multiplier self));
   ("offset"%string, Dict.Num (Mimic.offset self))].

(** The setter of [data]. *)
Definition set_data (self : Mimic.t F) (data : Dict.t F) : Dict.lookup (Mimic.t F) :=
  Dict.bind (Dict.get_str "joint" data) (fun joint =>
  Dict.bind (Dict.get_num "multiplier" data) (fun multiplier =>
  Dict.bind (Dict.get_num "offset" data) (fun offset =>
  Dict.Found (Mimic.mk joint multiplier offset)))).

(** [Mimic.from_data]: [mimic = cls(data['joint']); mimic.data = data]. *)
Definition from_data (data : Dict.t F) : Dict.lookup (Mimic.t F) :=
  Dict.bind (Dict.get_str "joint" data) (fun joint =>
  set_data (init joint None None) data).

End Ops.
End MimicIO.

Module LimitIO.
Section Ops.
Context {F : Type} {num : PyFloat F}.

(** [Limit.get_urdf_element]: [lower] and [upper] are kept when true,
    [effort] and [velocity] always, and [attr] is merged in last. *)
Definition get_urdf_element (self : Limit.t F) : URDFElement F :=
  let attributes := [("lower"%string, Dict.Num (Limit.lower self));
                     ("upper"%string, Dict.Num (Limit.upper self))] in
  let attributes := Dict.filter_truthy attributes in
  let attributes := Dict.set "effort" (Dict.Num (Limit.effort self)) attributes in
  let attributes := Dict.set "velocity" (Dict.Num (Limit.velocity self)) attributes in
  let attributes := Dict.update attributes (Dict.of_kwargs (Limit.attr self)) in
  mkURDFElement "limit" attributes.

End Ops.
End LimitIO.

Module SafetyControllerIO.
Section Ops.
Context {F : Type} {num : PyFloat F}.

(** [SafetyController.__init__(k_velocity, k_position=0.0,
    soft_lower_limit=0.0, soft_upper_limit=0.0)]. *)
Definition init (k_velocity : F) (k_position soft_lower_limit soft_upper_limit : option F)
    : SafetyController.t F :=
  SafetyController.mk k_velocity
    (match k_position with Some v => v | None => f_zero end)
    (match soft_lower_limit with Some v => v | None => f_zero end)
    (match soft_upper_limit with Some v => v | None => f_zero end).

(** [SafetyController.get_urdf_element]: [k_velocity] always, the other
    three when true. *)
Definition get_urdf_element (self : SafetyController.t F) : URDFElement F :=
  let attributes :=
    [("k_position"%string, Dict.Num (SafetyController.k_position self));
     ("soft_lower_limit"%string, Dict.Num (SafetyController.soft_lower_limit self));
     ("soft_upper_limit"%string, Dict.Num (SafetyController.soft_upper_limit self))] in
  let attributes := Dict.filter_truthy attributes in
  let attributes := Dict.set "k_velocity" (Dict.Num (SafetyController.k_velocity self)) attributes in
  mkURDFElement "safety_controller" attributes.

(** The property [data]. *)
Definition data (self : SafetyController.t F) : Dict.t F :=
  [("k_velocity"%string, Dict.Num (SafetyController.k_velocity self));
   ("k_position"%string, Dict.Num (SafetyController.k_position self));
   ("soft_lower_limit"%string, Dict.Num (SafetyController.soft_lower_limit self));
   ("soft_upper_limit"%string, Dict.Num (SafetyController.soft_upper_limit self))].

(** The setter of [data]. *)
Definition set_data (self : SafetyController.t F) (data : Dict.t F)
    : Dict.lookup (SafetyController.t F) :=
  Dict.bind (Dict.get_num "k_velocity" data) (fun k_velocity =>
  Dict.bind (Dict.get_num "k_position" data) (fun k_position =>
  Dict.bind (Dict.get_num "soft_lower_limit" data) (fun soft_lower_limit =>
  Dict.bind (Dict.get_num "soft_upper_limit" data) (fun soft_upper_limit =>
  Dict.Found (SafetyController.mk k_velocity k_position soft_lower_limit soft_upper_limit))))).

(** [SafetyController.from_data]: [sc = cls(data['k_velocity']);
    sc.data = data]. *)
Definition from_data (data : Dict.t F) : Dict.lookup (SafetyController.t F) :=
  Dict.bind (Dict.get_num "k_velocity" data) (fun k_velocity =>
  set_data (init k_velocity None None None) data).

End Ops.
End SafetyControllerIO.

(** ** Joint: frames and the type attribute *)

(** [compas.geometry] as [Joint.transform] and [Joint._create] use it, none
    of it under src/: [frame.transformed(T)] (and [frame.transform(T)], which
    stores that frame), [transform_vectors([v], T.matrix)[0]] and
    [Transformation.from_frame(frame)], for transformations of any kind
    [T]. *)
Class Kinematics (F T : Type) : Type := {
  Frame_transformed : Frame.t F -> T -> Frame.t F;
  transform_vector : Vector.t F -> T -> Vector.t F;
  Transformation_from_frame : Frame.t F -> T
}.

Module AxisMotion.
Section Ops.
Context {F T : Type} {kin : Kinematics F T}.

(** [Axis.transform]: in place. *)
Definition transform (self : Axis.t F) (transformation : T) : Axis.t F :=
  let xyz := transform_vector (Vector.mk (Axis.x self) (Axis.y self) (Axis.z self))
                              transformation in
  Axis.mk (Vector.x xyz) (Vector.y xyz) (Vector.z xyz) (Axis.attr self).

(** [Axis.transformed]: returns a [Vector]. *)
Definition transformed (self : Axis.t F) (transformation : T) : Vector.t F :=
  let xyz := transform_vector (Vector.mk (Axis.x self) (Axis.y self) (Axis.z self))
                              transformation in
  Vector.mk (Vector.x xyz) (Vector.y xyz) (Vector.z xyz).

End Ops.
End AxisMotion.

Module JointMotion.
Section Ops.
Context {F T : Type} {kin : Kinematics F T}.

Definition set_current_axis (self : Joint.t F) (v : Axis.t F) : Joint.t F :=
  Joint.mk (Joint.name self) (Joint.type self) (Joint.parent self) (Joint.child self)
    (Joint.origin self) (Joint.axis self) (Joint.calibration self) (Joint.dynamics self)
    (Joint.limit self) (Joint.safety_controller self) (Joint.mimic self) (Joint.attr self)
    (Joint.child_link self) (Joint.position self) (Joint.current_origin self) v
    (Joint._calculate_transformation self).

(** [self.type = ...], as the setter of [data] does. *)
Definition set_type (self : Joint.t F) (v : Z) : Joint.t F :=
  Joint.mk (Joint.name self) v (Joint.parent self) (Joint.child self)
    (Joint.origin self) (Joint.axis self) (Joint.calibration self) (Joint.dynamics self)
    (Joint.limit self) (Joint.safety_controller self) (Joint.mimic self) (Joint.attr self)
    (Joint.child_link self) (Joint.position self) (Joint.current_origin self)
    (Joint.current_axis self) (Joint._calculate_transformation self).

(** The property [current_transformation]. *)
Definition current_transformation (self : Joint.t F) : T :=
  Transformation_from_frame (Joint.current_origin self).

(** [Joint.transform]. *)
Definition transform (self : Joint.t F) (transformation : T) : Joint.t F :=
  let self := Joint.set_current_origin self
                (Frame_transformed (Joint.current_origin self) transformation) in
  set_current_axis self (AxisMotion.transform (Joint.current_axis self) transformation).

(** [Joint._create]. *)
Definition _create (self : Joint.t F) (transformation : T) : Joint.t F :=
  let self := Joint.set_current_origin self
                (Frame_transformed (Joint.origin self) transformation) in
  set_current_axis self
    (AxisMotion.transform (Joint.current_axis self) (current_transformation self)).

End Ops.
End JointMotion.

(** ** Example joints (binary64) *)

Module Examples.

(** A revolute joint about [(0, 0, 1)] with limit [[-1.0, 1.0]]. *)
Definition revolute_joint : result (Joint.t float) :=
  @Joint.init _ Binary64.num Binary64.geo Binary64.txt
    "J" (inl "revolute"%string) (inr "base"%string) (inr "arm"%string) None
    (Some (@Axis.init _ Binary64.num Binary64.geo (Vector.mk 0 0 1)%float []))
    None None (Some (Limit.mk 0 0 (-1) 1 [])%float) None None [].

(** A planar joint built without a limit (the constructor's default). *)
Definition planar_joint : result (Joint.t float) :=
  @Joint.init _ Binary64.num Binary64.geo Binary64.txt
    "P" (inl "planar"%string) (inr "base"%string) (inr "table"%string)
    (Some (Frame.mk (Vector.mk 1 2 3) (Vector.mk 1 0 0) (Vector.mk 0 1 0))%float)
    None None None None None None [].

(** [Axis("1 2 3")]. *)
Definition axis_123 : Axis.t float :=
  @Axis.init _ Binary64.num Binary64.geo (Vector.mk 1 2 3)%float [].

(** An axis whose components were set through [data] to [(0, 0, 2)]. *)
Definition axis_002 : Axis.t float :=
  Axis.set_data (@Axis.default _ Binary64.num Binary64.geo) 0%float 0%float 2%float [].

(** A continuous joint with that axis. *)
Definition continuous_joint : result (Joint.t float) :=
  @Joint.init _ Binary64.num Binary64.geo Binary64.txt
    "Y" (inl "continuous"%string) (inr "base"%string) (inr "arm"%string) None
    (Some axis_002) None None None None None [].

(** A fixed joint with the axis [Axis("1 2 3")]. *)
Definition fixed_joint : result (Joint.t float) :=
  @Joint.init _ Binary64.num Binary64.geo Binary64.txt
    "X" (inl "fixed"%string) (inr "base"%string) (inr "arm"%string) None
    (Some axis_123) None None None None None [].

(** A floating joint and a prismatic joint without a limit. *)
Definition floating_joint : result (Joint.t float) :=
  @Joint.init _ Binary64.num Binary64.geo Binary64.txt
    "Fl" (inr Joint.FLOATING) (inr "base"%string) (inr "arm"%string) None None
    None None None None None [].

Definition prismatic_joint_without_limit : result (Joint.t float) :=
  @Joint.init _ Binary64.num Binary64.geo Binary64.txt
    "Pr" (inl "prismatic"%string) (inr "base"%string) (inr "arm"%string) None None
    None None None None None [].

End Examples.

(** * Theorems *)

(** ** Limit and Mimic *)

Section LimitMimic.
Context {F : Type} {num : PyFloat F}.

(** C7. [Limit.scale(factor)] multiplies [lower] and [upper] by [factor] and
    leaves [effort], [velocity] (and [attr]) as they were. *)
Theorem Limit_scale_bounds_only (l : Limit.t F) (factor : F) :
  Limit.lower (Limit.scale l factor) = f_mul (Limit.lower l) factor /\
  Limit.upper (Limit.scale l factor) = f_mul (Limit.upper l) factor /\
  Limit.effort (Limit.scale l factor) = Limit.effort l /\
  Limit.velocity (Limit.scale l factor) = Limit.velocity l /\
  Limit.attr (Limit.scale l factor) = Limit.attr l.
Proof. repeat split. Qed.

Lemma Mimic_calculate_position_eq (m : Mimic.t F) (x : F) :
  Mimic.calculate_position m x = f_add (f_mul (Mimic.multiplier m) x) (Mimic.offset m).
Proof. reflexivity. Qed.

End LimitMimic.

(** C6 (as stated) fails on binary64 floats: with [multiplier = 1.0] and
    [offset = 1e16], [calculate_position(1.0) - calculate_position(0.0)] is
    [0.0] (both sums round to [1e16]) while [multiplier * (1.0 - 0.0)] is
    [1.0]. *)
Lemma Mimic_difference_law_fails_on_floats :
  let m := Mimic.mk "A" 1.0%float 1e16%float in
  let lhs := @f_sub _ Binary64.num
               (@Mimic.calculate_position _ Binary64.num m 1.0%float)
               (@Mimic.calculate_position _ Binary64.num m 0.0%float) in
  let rhs := @f_mul _ Binary64.num (Mimic.multiplier m) (@f_sub _ Binary64.num 1.0 0.0)%float in
  lhs = 0.0%float /\ rhs = 1.0%float /\ @f_eqb _ Binary64.num lhs rhs = false.
Proof. vm_compute. repeat split. Qed.

(** C6 (amended). [calculate_position(x)] is [multiplier * x + offset] in the
    arithmetic of the floats; the difference law
    [calculate_position(x) - calculate_position(y) = multiplier * (x - y)]
    holds in exact arithmetic; and on binary64 floats, with multiplier [2.0]
    and offset [0.1], [calculate_position(0.5)] is [1.1]. *)
Theorem Mimic_calculate_position_linear :
  (forall (F : Type) (num : PyFloat F) (m : Mimic.t F) (x : F),
      Mimic.calculate_position m x = f_add (f_mul (Mimic.multiplier m) x) (Mimic.offset m)) /\
  (forall (m : Mimic.t R) (x y : R),
      (@Mimic.calculate_position _ Exact.num m x - @Mimic.calculate_position _ Exact.num m y
       = Mimic.multiplier m * (x - y))%R) /\
  @Mimic.calculate_position _ Binary64.num (Mimic.mk "A" 2.0%float 0.1%float) 0.5%float
  = 1.1%float.
Proof.
  split; [ | split ].
  - intros F num m x. apply Mimic_calculate_position_eq.
  - intros m x y. unfold Mimic.calculate_position. simpl. ring.
  - vm_compute. reflexivity.
Qed.

(** ** Axis *)




Section AxisInit.
Context {F : Type} {num : PyFloat F} {geo : Geometry F}.

(** What [Vector] promises: a vector of length zero is the zero vector, and
    unitizing a vector of non-zero length gives a vector of length one. *)
Hypothesis length_zero :
  forall v : Vector.t F, f_eqb (Vector_length v) f_zero = true -> v = Vector.zero.
Hypothesis unitize_length :
  forall v : Vector.t F,
    f_eqb (Vector_length v) f_zero = false -> Vector_length (Vector_unitize v) = f_one.


End AxisInit.


(** ** Joint: dispatch *)

Section JointDispatch.
Context {F : Type} {num : PyFloat F}.

Lemma call_ignores_stored_target (m : Joint.method) (j : Joint.t F) v (p : F) :
  Joint.call m (Joint.set__calculate_transformation j v) p = Joint.call m j p.
Proof. destruct m; reflexivity. Qed.

(** With a consistent dispatch target the call runs the method of the
    joint's type. *)
Lemma calculate_transformation_result (j : Joint.t F) (p : F) :
  dispatch_consistent j ->
  snd (Joint.calculate_transformation j p) =
  match Joint.switcher (Joint.type j) with
  | Some m => Joint.call m j p
  | None => Raise (TypeError "'NoneType' object is not callable")
  end.
Proof.
  unfold dispatch_consistent, Joint.calculate_transformation.
  intros [H | H]; rewrite H; simpl.
  - destruct (Joint.switcher (Joint.type j)); simpl; [ apply call_ignores_stored_target | reflexivity ].
  - rewrite H. destruct (Joint.switcher (Joint.type j)); reflexivity.
Qed.

(** The joint after the call: the same joint, with the dispatch target
    stored if it was not. *)
Lemma calculate_transformation_state (j : Joint.t F) (p : F) :
  fst (Joint.calculate_transformation j p) =
  match Joint._calculate_transformation j with
  | None => Joint.set__calculate_transformation j (Some (Joint.switcher (Joint.type j)))
  | Some _ => j
  end.
Proof.
  unfold Joint.calculate_transformation.
  destruct (Joint._calculate_transformation j) as [[m | ] | ] eqn:E; simpl.
  - rewrite E. reflexivity.
  - rewrite E. reflexivity.
  - destruct (Joint.switcher (Joint.type j)); reflexivity.
Qed.

Lemma calculate_transformation_consistent (j : Joint.t F) (p : F) :
  dispatch_consistent j -> dispatch_consistent (fst (Joint.calculate_transformation j p)).
Proof.
  intros H. rewrite calculate_transformation_state.
  destruct (Joint._calculate_transformation j) eqn:E; [ exact H | ].
  right. reflexivity.
Qed.

Lemma scale_consistent (j : Joint.t F) (factor : F) :
  dispatch_consistent j -> dispatch_consistent (fst (Joint.scale j factor)).
Proof.
  unfold Joint.scale. intros H.
  destruct (Joint.is_scalable _); [ destruct (Joint.limit _) | ]; exact H.
Qed.

Lemma init_consistent {geo : Geometry F} {txt : FloatText F} name type parent child origin axis calibration
    dynamics limit safety_controller mimic kw (j : Joint.t F) :
  Joint.init name type parent child origin axis calibration dynamics limit
             safety_controller mimic kw = Return j ->
  dispatch_consistent j.
Proof.
  unfold Joint.init. intros H.
  destruct (match type with inl s => _ | inr i => _ end); [ discriminate | ].
  destruct (negb _); [ discriminate | ].
  injection H as <-. left. reflexivity.
Qed.

(** Clamping the clamped position changes nothing, whatever the bounds. *)
Lemma clamp_clamp_to_bounds (p lower upper : F) :
  py_max (py_min (clamp_to_bounds p lower upper) upper) lower =
  py_max (py_min p upper) lower.
Proof.
  unfold clamp_to_bounds, py_max, py_min, f_gt.
  destruct (f_lt upper p) eqn:Hup; simpl.
  - destruct (f_lt upper upper); reflexivity.
  - destruct (f_lt p lower) eqn:Hlow; simpl.
    + destruct (f_lt upper lower) eqn:Hul; simpl; rewrite ?Hul; simpl; [ reflexivity | ].
      destruct (f_lt lower lower); reflexivity.
    + rewrite Hup. simpl. rewrite Hlow. reflexivity.
Qed.

Lemma switcher_REVOLUTE : Joint.switcher Joint.REVOLUTE = Some Joint.calculate_revolute.
Proof. reflexivity. Qed.
Lemma switcher_PRISMATIC : Joint.switcher Joint.PRISMATIC = Some Joint.calculate_prismatic.
Proof. reflexivity. Qed.
Lemma switcher_FIXED : Joint.switcher Joint.FIXED = Some Joint.calculate_fixed.
Proof. reflexivity. Qed.
Lemma switcher_FLOATING : Joint.switcher Joint.FLOATING = Some Joint.calculate_floating.
Proof. reflexivity. Qed.
Lemma switcher_PLANAR : Joint.switcher Joint.PLANAR = Some Joint.calculate_planar.
Proof. reflexivity. Qed.

(** The transformation of a revolute or prismatic joint with a limit. *)
Lemma revolute_with_limit (j : Joint.t F) (l : Limit.t F) (p : F) :
  dispatch_consistent j -> Joint.type j = Joint.REVOLUTE -> Joint.limit j = Some l ->
  snd (Joint.calculate_transformation j p) =
  Return (Rotation_from_axis_and_angle
            (Axis.vector (Joint.current_axis j))
            (py_max (py_min p (Limit.upper l)) (Limit.lower l))
            (Frame.point (Joint.current_origin j))).
Proof.
  intros Hc Ht Hl. rewrite (calculate_transformation_result _ Hc), Ht, switcher_REVOLUTE.
  simpl. unfold Joint.calculate_revolute_transformation. rewrite Hl. reflexivity.
Qed.

Lemma prismatic_with_limit (j : Joint.t F) (l : Limit.t F) (p : F) :
  dispatch_consistent j -> Joint.type j = Joint.PRISMATIC -> Joint.limit j = Some l ->
  snd (Joint.calculate_transformation j p) =
  Return (Translation_from_vector
            (Vector.mul (Axis.vector (Joint.current_axis j))
                        (py_max (py_min p (Limit.upper l)) (Limit.lower l)))).
Proof.
  intros Hc Ht Hl. rewrite (calculate_transformation_result _ Hc), Ht, switcher_PRISMATIC.
  simpl. unfold Joint.calculate_prismatic_transformation. rewrite Hl. reflexivity.
Qed.

Lemma revolute_without_limit (j : Joint.t F) (p : F) :
  dispatch_consistent j -> Joint.type j = Joint.REVOLUTE -> Joint.limit j = None ->
  snd (Joint.calculate_transformation j p) =
  Raise (ValueError "Revolute joints are required to define a limit").
Proof.
  intros Hc Ht Hl. rewrite (calculate_transformation_result _ Hc), Ht, switcher_REVOLUTE.
  simpl. unfold Joint.calculate_revolute_transformation. rewrite Hl. reflexivity.
Qed.

Lemma prismatic_without_limit (j : Joint.t F) (p : F) :
  dispatch_consistent j -> Joint.type j = Joint.PRISMATIC -> Joint.limit j = None ->
  snd (Joint.calculate_transformation j p) =
  Raise (ValueError "Prismatic joints are required to define a limit").
Proof.
  intros Hc Ht Hl. rewrite (calculate_transformation_result _ Hc), Ht, switcher_PRISMATIC.
  simpl. unfold Joint.calculate_prismatic_transformation. rewrite Hl. reflexivity.
Qed.

(** The result of a call depends on the joint through its stored target (or
    type), limit, current axis and current origin only. *)
Lemma call_depends_on (m : Joint.method) (j1 j2 : Joint.t F) (p : F) :
  Joint.limit j1 = Joint.limit j2 ->
  Joint.current_axis j1 = Joint.current_axis j2 ->
  Joint.current_origin j1 = Joint.current_origin j2 ->
  Joint.call m j1 p = Joint.call m j2 p.
Proof.
  intros Hl Ha Ho. destruct m; simpl;
    unfold Joint.calculate_revolute_transformation, Joint.calculate_prismatic_transformation,
      Joint.calculate_continuous_transformation; rewrite ?Hl, ?Ha, ?Ho; reflexivity.
Qed.

End JointDispatch.

(** ** Joint: transformations *)

(** C1. For a revolute or prismatic joint with a limit, the call with any
    position (in particular one outside [[lower, upper]]) returns what the
    call with that position clamped to the nearest bound returns; and a
    revolute joint with limit [[-1.0, 1.0]] asked for position [2.0] returns
    the rotation through [1.0]. *)
Theorem calculate_transformation_clamps :
  (forall (F : Type) (num : PyFloat F) (j : Joint.t F) (l : Limit.t F) (p : F),
      dispatch_consistent j ->
      Joint.type j = Joint.REVOLUTE \/ Joint.type j = Joint.PRISMATIC ->
      Joint.limit j = Some l ->
      Joint.calculate_transformation j p =
      Joint.calculate_transformation j (clamp_to_bounds p (Limit.lower l) (Limit.upper l))) /\
  (forall (j : Joint.t float) (l : Limit.t float),
      dispatch_consistent j ->
      Joint.type j = Joint.REVOLUTE ->
      Joint.limit j = Some l ->
      Limit.lower l = (-1.0)%float -> Limit.upper l = 1.0%float ->
      snd (@Joint.calculate_transformation _ Binary64.num j 2.0%float) =
      Return (Rotation_from_axis_and_angle
                (Axis.vector (Joint.current_axis j)) 1.0%float
                (Frame.point (Joint.current_origin j)))).
Proof.
  split.
  - intros F num j l p Hc Ht Hl.
    apply injective_projections.
    + rewrite !calculate_transformation_state. reflexivity.
    + destruct Ht as [Ht | Ht].
      * rewrite !(revolute_with_limit _ Hc Ht Hl), clamp_clamp_to_bounds. reflexivity.
      * rewrite !(prismatic_with_limit _ Hc Ht Hl), clamp_clamp_to_bounds. reflexivity.
  - intros j l Hc Ht Hl Hlow Hup.
    rewrite (revolute_with_limit (num := Binary64.num) _ Hc Ht Hl), Hlow, Hup.
    reflexivity.
Qed.

Lemma calculate_transformation_clamps_witness :
  exists j : Joint.t float,
    Examples.revolute_joint = Return j /\
    @Joint.calculate_transformation _ Binary64.num j 2.0%float =
    @Joint.calculate_transformation _ Binary64.num j 1.0%float /\
    snd (@Joint.calculate_transformation _ Binary64.num j 2.0%float) =
    Return (Rotation_from_axis_and_angle
              (Vector.mk 0 0 1)%float 1.0%float (Vector.mk 0 0 0)%float).
Proof.
  eexists. split; [ vm_compute; reflexivity | ]. split.
  - refine (proj1 calculate_transformation_clamps float Binary64.num
              _ (Limit.mk 0 0 (-1) 1 [])%float 2.0%float _ _ _).
    + left. reflexivity.
    + left. reflexivity.
    + reflexivity.
  - refine (proj2 calculate_transformation_clamps
              _ (Limit.mk 0 0 (-1) 1 [])%float _ _ _ _ _).
    + left. reflexivity.
    + reflexivity.
    + reflexivity.
    + reflexivity.
    + reflexivity.
Defined.

Section JointTransformations.
Context {F : Type} {num : PyFloat F}.

(** C3. For a revolute or prismatic joint the call raises exactly when the
    joint has no limit; with a limit it returns a transformation for every
    position. *)
Theorem missing_limit_error (j : Joint.t F) (p : F) :
  dispatch_consistent j ->
  Joint.type j = Joint.REVOLUTE \/ Joint.type j = Joint.PRISMATIC ->
  ((exists e, snd (Joint.calculate_transformation j p) = Raise e) <-> Joint.limit j = None) /\
  (Joint.limit j = None ->
   exists msg, snd (Joint.calculate_transformation j p) = Raise (ValueError msg)) /\
  (forall l, Joint.limit j = Some l ->
   exists t, snd (Joint.calculate_transformation j p) = Return t).
Proof.
  intros Hc Ht.
  assert (Joint.limit j = None ->
          exists msg, snd (Joint.calculate_transformation j p) = Raise (ValueError msg)) as Hnone.
  { intros Hl. destruct Ht as [Ht | Ht]; eexists.
    - apply (revolute_without_limit _ Hc Ht Hl).
    - apply (prismatic_without_limit _ Hc Ht Hl). }
  assert (forall l, Joint.limit j = Some l ->
          exists t, snd (Joint.calculate_transformation j p) = Return t) as Hsome.
  { intros l Hl. destruct Ht as [Ht | Ht]; eexists.
    - apply (revolute_with_limit _ Hc Ht Hl).
    - apply (prismatic_with_limit _ Hc Ht Hl). }
  split; [ | split; assumption ].
  split.
  - intros [e He]. destruct (Joint.limit j) as [l | ] eqn:Hl; [ | reflexivity ].
    destruct (Hsome l eq_refl) as [t Hr]. rewrite Hr in He. discriminate.
  - intros Hl. destruct (Hnone Hl) as [msg Hr]. eexists. exact Hr.
Qed.

(** C4. For a floating or planar joint the call raises
    [NotImplementedError] for every position; the error of a revolute or
    prismatic joint without a limit is a [ValueError], a different class. *)
Theorem unimplemented_kind_error (j : Joint.t F) (p : F) :
  dispatch_consistent j ->
  Joint.type j = Joint.FLOATING \/ Joint.type j = Joint.PLANAR ->
  snd (Joint.calculate_transformation j p) = Raise NotImplementedError /\
  (forall (j' : Joint.t F) (p' : F),
      dispatch_consistent j' ->
      Joint.type j' = Joint.REVOLUTE \/ Joint.type j' = Joint.PRISMATIC ->
      Joint.limit j' = None ->
      exists msg,
        snd (Joint.calculate_transformation j' p') = Raise (ValueError msg) /\
        same_error_class (ValueError msg) NotImplementedError = false).
Proof.
  intros Hc Ht. split.
  - rewrite (calculate_transformation_result _ Hc).
    destruct Ht as [Ht | Ht]; rewrite Ht; reflexivity.
  - intros j' p' Hc' Ht' Hl'. destruct Ht' as [Ht' | Ht']; eexists; split.
    + apply (revolute_without_limit _ Hc' Ht' Hl').
    + reflexivity.
    + apply (prismatic_without_limit _ Hc' Ht' Hl').
    + reflexivity.
Qed.

(** C8. For a fixed joint the call returns the identity transformation for
    every position. *)
Theorem fixed_joint_identity (j : Joint.t F) (p : F) :
  dispatch_consistent j ->
  Joint.type j = Joint.FIXED ->
  snd (Joint.calculate_transformation j p) = Return Transformation_identity.
Proof.
  intros Hc Ht. rewrite (calculate_transformation_result _ Hc), Ht. reflexivity.
Qed.

End JointTransformations.

Lemma missing_limit_error_witness :
  (exists j : Joint.t float,
      Examples.prismatic_joint_without_limit = Return j /\
      exists msg, snd (@Joint.calculate_transformation _ Binary64.num j 0.5%float)
                  = Raise (ValueError msg)) /\
  (exists j : Joint.t float,
      Examples.revolute_joint = Return j /\
      exists t, snd (@Joint.calculate_transformation _ Binary64.num j 0.5%float) = Return t).
Proof.
  split; eexists; (split; [ vm_compute; reflexivity | ]).
  - refine (proj1 (proj2 (@missing_limit_error float Binary64.num
                            _ 0.5%float _ _)) _).
    + left. reflexivity.
    + right. reflexivity.
    + reflexivity.
  - refine (proj2 (proj2 (@missing_limit_error float Binary64.num
                            _ 0.5%float _ _)) _ _).
    + left. reflexivity.
    + left. reflexivity.
    + reflexivity.
Defined.

Lemma unimplemented_kind_error_witness :
  exists j : Joint.t float,
    Examples.floating_joint = Return j /\
    snd (@Joint.calculate_transformation _ Binary64.num j 0.3%float) = Raise NotImplementedError.
Proof.
  eexists. split; [ vm_compute; reflexivity | ].
  refine (proj1 (@unimplemented_kind_error float Binary64.num _ 0.3%float _ _)).
  - left. reflexivity.
  - left. reflexivity.
Defined.

Lemma fixed_joint_identity_witness :
  exists j : Joint.t float,
    Examples.fixed_joint = Return j /\
    snd (@Joint.calculate_transformation _ Binary64.num j 0.7%float)
    = Return Transformation_identity.
Proof.
  eexists. split; [ vm_compute; reflexivity | ].
  refine (@fixed_joint_identity float Binary64.num _ 0.7%float _ _).
  - left. reflexivity.
  - reflexivity.
Defined.

(** ** Joint: what a query leaves behind *)

Section JointReadOnly.
Context {F : Type} {num : PyFloat F}.

(** C9. The call leaves [position], [current_origin], [current_axis], the
    static [origin] and [axis], [limit] and [mimic] as they were, and every
    other attribute except the dispatch target it stores on the first call;
    the call does not affect what later calls return; and the result is
    determined by the joint's type, limit, current axis and current origin
    and by the argument. *)
Theorem calculate_transformation_read_only (j : Joint.t F) (p : F) :
  let j' := fst (Joint.calculate_transformation j p) in
  (Joint.position j' = Joint.position j /\
   Joint.current_origin j' = Joint.current_origin j /\
   Joint.current_axis j' = Joint.current_axis j /\
   Joint.origin j' = Joint.origin j /\
   Joint.axis j' = Joint.axis j /\
   Joint.limit j' = Joint.limit j /\
   Joint.mimic j' = Joint.mimic j) /\
  Joint.set__calculate_transformation j' None = Joint.set__calculate_transformation j None /\
  (forall q : F,
      Joint.calculate_transformation j' q = (j', snd (Joint.calculate_transformation j q))) /\
  (forall j2 : Joint.t F,
      dispatch_consistent j -> dispatch_consistent j2 ->
      Joint.type j = Joint.type j2 ->
      Joint.limit j = Joint.limit j2 ->
      Joint.current_axis j = Joint.current_axis j2 ->
      Joint.current_origin j = Joint.current_origin j2 ->
      snd (Joint.calculate_transformation j p) = snd (Joint.calculate_transformation j2 p)).
Proof.
  cbv zeta. rewrite calculate_transformation_state.
  split; [ | split; [ | split ] ].
  - destruct (Joint._calculate_transformation j); repeat split.
  - destruct (Joint._calculate_transformation j); reflexivity.
  - intros q. unfold Joint.calculate_transformation.
    destruct (Joint._calculate_transformation j) as [[m | ] | ] eqn:E; simpl; rewrite ?E; simpl;
      try reflexivity.
    destruct (Joint.switcher (Joint.type j)); reflexivity.
  - intros j2 Hc Hc2 Ht Hl Ha Ho.
    rewrite (calculate_transformation_result _ Hc), (calculate_transformation_result _ Hc2), Ht.
    destruct (Joint.switcher (Joint.type j2)); [ | reflexivity ].
    apply call_depends_on; assumption.
Qed.

(** What [scale] does in each case. *)
Lemma scale_cases (j : Joint.t F) (factor : F) :
  let j' := fst (Joint.scale j factor) in
  Joint.current_origin j' = Frame.scale (Joint.current_origin j) factor /\
  Joint.set_limit (Joint.set_current_origin j' (Joint.current_origin j)) (Joint.limit j) = j /\
  (Joint.is_scalable j = false ->
   snd (Joint.scale j factor) = Return tt /\ Joint.limit j' = Joint.limit j) /\
  (forall l, Joint.is_scalable j = true -> Joint.limit j = Some l ->
   snd (Joint.scale j factor) = Return tt /\ Joint.limit j' = Some (Limit.scale l factor)) /\
  (Joint.is_scalable j = true -> Joint.limit j = None ->
   snd (Joint.scale j factor) =
   Raise (AttributeError "'NoneType' object has no attribute 'scale'") /\
   Joint.limit j' = None).
Proof.
  cbv zeta. unfold Joint.scale.
  change (Joint.is_scalable (Joint.set_current_origin j (Frame.scale (Joint.current_origin j) factor)))
    with (Joint.is_scalable j).
  change (Joint.limit (Joint.set_current_origin j (Frame.scale (Joint.current_origin j) factor)))
    with (Joint.limit j).
  destruct j as [n ty pa ch o a ca dy li sc mi kw cl po co cax ct]; simpl.
  destruct (Joint.is_scalable _) eqn:Es; [ destruct li as [l | ] | ]; simpl;
    repeat split; try discriminate; try reflexivity.
  intros; congruence.
Qed.

Lemma is_scalable_types (j : Joint.t F) :
  Joint.is_scalable j = true <->
  Joint.type j = Joint.PLANAR \/ Joint.type j = Joint.PRISMATIC.
Proof.
  unfold Joint.is_scalable. rewrite Bool.orb_true_iff, !Z.eqb_eq. reflexivity.
Qed.

End JointReadOnly.

Lemma calculate_transformation_read_only_witness :
  exists j j2 : Joint.t float,
    Examples.revolute_joint = Return j /\
    j2 = fst (@Joint.calculate_transformation _ Binary64.num j 0.25%float) /\
    snd (@Joint.calculate_transformation _ Binary64.num j 2.0%float) =
    snd (@Joint.calculate_transformation _ Binary64.num j2 2.0%float).
Proof.
  eexists. eexists. split; [ vm_compute; reflexivity | ]. split; [ reflexivity | ].
  refine (proj2 (proj2 (proj2 (@calculate_transformation_read_only
                                 float Binary64.num _ 2.0%float))) _ _ _ _ _ _ _).
  - left. reflexivity.
  - right. reflexivity.
  - reflexivity.
  - reflexivity.
  - reflexivity.
  - reflexivity.
Defined.

(** C2. [Joint.scale(factor)] scales the translation of [current_origin]
    and, for a scalable joint, the bounds of the limit.  On a planar joint
    built without a limit the code scales the origin and then raises
    [AttributeError], where the claim has it rescale and return. *)
Theorem scale_planar_without_limit_raises :
  exists j : Joint.t float,
    Examples.planar_joint = Return j /\
    Joint.limit j = None /\
    Joint.is_scalable j = true /\
    snd (@Joint.scale _ Binary64.num j 2.0%float) =
    Raise (AttributeError "'NoneType' object has no attribute 'scale'") /\
    Frame.point (Joint.current_origin (fst (@Joint.scale _ Binary64.num j 2.0%float))) =
    (Vector.mk 2 4 6)%float.
Proof.
  eexists. split; [ vm_compute; reflexivity | ].
  repeat split.
Qed.

(** ** Axis.copy *)

(** C10. [Axis.copy] builds the copy from the components printed with six
    decimals and parsed again, which the constructor unitizes; the copy of
    [Axis("1 2 3")] differs from the original in every component, by less
    than [1e-6]; [Joint.__init__] sets [current_axis] to that copy of the
    axis, so a new joint's [current_axis] can differ from its [axis]: below
    [1e-6] for [Axis("1 2 3")], and by [1] in the third component for an axis
    whose components are [(0, 0, 2)]. *)
Theorem Axis_copy_reparses :
  (forall (F : Type) (num : PyFloat F) (geo : Geometry F) (txt : FloatText F) (a : Axis.t F),
      Axis.copy a =
      Axis.init (Vector.mk (reparse (Axis.x a)) (reparse (Axis.y a)) (reparse (Axis.z a))) []) /\
  (let a := Examples.axis_123 in
   let c := @Axis.copy _ Binary64.num Binary64.geo Binary64.txt a in
   Axis.vector a =
   Vector.mk 0.2672612419124244%float 0.53452248382484879%float 0.80178372573727319%float /\
   Vector.mk (Binary64.reparse_f (Axis.x a)) (Binary64.reparse_f (Axis.y a))
             (Binary64.reparse_f (Axis.z a)) =
   Vector.mk 0.267261%float 0.534522%float 0.801784%float /\
   Axis.vector c =
   Vector.mk 0.26726102762664022%float 0.53452205525328045%float 0.80178408288002401%float /\
   PrimFloat.eqb (Axis.x c) (Axis.x a) = false /\
   PrimFloat.eqb (Axis.y c) (Axis.y a) = false /\
   PrimFloat.eqb (Axis.z c) (Axis.z a) = false /\
   PrimFloat.ltb (abs (Axis.x c - Axis.x a)) 1e-6 = true /\
   PrimFloat.ltb (abs (Axis.y c - Axis.y a)) 1e-6 = true /\
   PrimFloat.ltb (abs (Axis.z c - Axis.z a)) 1e-6 = true)%float /\
  (forall (F : Type) (num : PyFloat F) (geo : Geometry F) (txt : FloatText F)
          name type parent child origin (a : Axis.t F) calibration dynamics limit
          safety_controller mimic kw,
      match Joint.init name type parent child origin (Some a) calibration dynamics limit
                       safety_controller mimic kw with
      | Return j => Joint.axis j = a /\ Joint.current_axis j = Axis.copy a
      | Raise _ => True
      end) /\
  (exists j : Joint.t float,
      Examples.fixed_joint = Return j /\
      PrimFloat.eqb (Axis.x (Joint.current_axis j)) (Axis.x (Joint.axis j)) = false) /\
  (exists j : Joint.t float,
      Examples.continuous_joint = Return j /\
      Axis.vector (Joint.axis j) = (Vector.mk 0 0 2)%float /\
      Axis.vector (Joint.current_axis j) = (Vector.mk 0 0 1)%float).
Proof.
  split; [ reflexivity | ].
  split; [ vm_compute; repeat split | ].
  split.
  - intros. unfold Joint.init.
    destruct (match type with inl s => _ | inr i => _ end); [ exact I | ].
    destruct (negb _); [ exact I | ]. split; reflexivity.
  - split; eexists; (split; [ vm_compute; reflexivity | ]); vm_compute; repeat split.
Qed.

(** * Further properties *)

(** ** Comparisons of binary64 floats *)

Lemma Binary64_lt_irrefl (a : float) : @f_lt _ Binary64.num a a = false.
Proof.
  simpl. rewrite ltb_spec. unfold SFltb.
  destruct (Prim2SF a) as [s | s | | s m e]; simpl; try reflexivity.
  - destruct s; reflexivity.
  - rewrite Z.compare_refl, Pos.compare_refl. destruct s; reflexivity.
Qed.

Lemma Binary64_lt_nan_l (a : float) : @f_lt _ Binary64.num nan a = false.
Proof.
  simpl. rewrite ltb_spec. unfold SFltb.
  change (Prim2SF nan) with S754_nan. reflexivity.
Qed.

Lemma Binary64_lt_nan_r (a : float) : @f_lt _ Binary64.num a nan = false.
Proof.
  simpl. rewrite ltb_spec. unfold SFltb.
  change (Prim2SF nan) with S754_nan.
  destruct (Prim2SF a) as [s | s | | s m e]; reflexivity.
Qed.

(** ** Joint: the position applied *)

Section JointPosition.
Context {F : Type} {num : PyFloat F}.

Lemma clamp_within (p lower upper : F) :
  (forall a : F, f_lt a a = false) ->
  f_lt upper lower = false ->
  f_lt (py_max (py_min p upper) lower) lower = false /\
  f_lt upper (py_max (py_min p upper) lower) = false.
Proof.
  intros Hirr Hb. unfold py_max, py_min, f_gt.
  destruct (f_lt upper p) eqn:Hup.
  - rewrite Hb. split; [ exact Hb | apply Hirr ].
  - destruct (f_lt p lower) eqn:Hlow; split; auto.
Qed.

Lemma clamp_in_range (p lower upper : F) :
  f_lt upper p = false -> f_lt p lower = false ->
  py_max (py_min p upper) lower = p.
Proof.
  intros Hup Hlow. unfold py_max, py_min, f_gt. rewrite Hup, Hlow. reflexivity.
Qed.

(** X1. With [<] irreflexive and a limit whose upper bound is not below its
    lower bound, the angle a revolute joint rotates through, and the
    distance a prismatic joint translates by, is never below [lower] nor
    above [upper], whatever position is asked for. *)
Theorem limited_joint_stays_within_limit (j : Joint.t F) (l : Limit.t F) (p : F) :
  (forall a : F, f_lt a a = false) ->
  dispatch_consistent j ->
  Joint.limit j = Some l ->
  f_lt (Limit.upper l) (Limit.lower l) = false ->
  (Joint.type j = Joint.REVOLUTE ->
   exists angle,
     snd (Joint.calculate_transformation j p) =
     Return (Rotation_from_axis_and_angle (Axis.vector (Joint.current_axis j)) angle
               (Frame.point (Joint.current_origin j))) /\
     f_lt angle (Limit.lower l) = false /\ f_lt (Limit.upper l) angle = false) /\
  (Joint.type j = Joint.PRISMATIC ->
   exists distance,
     snd (Joint.calculate_transformation j p) =
     Return (Translation_from_vector
               (Vector.mul (Axis.vector (Joint.current_axis j)) distance)) /\
     f_lt distance (Limit.lower l) = false /\ f_lt (Limit.upper l) distance = false).
Proof.
  intros Hirr Hc Hl Hb. split; intros Ht; eexists; split.
  - apply (revolute_with_limit _ Hc Ht Hl).
  - apply clamp_within; assumption.
  - apply (prismatic_with_limit _ Hc Ht Hl).
  - apply clamp_within; assumption.
Qed.

Lemma in_range_position_result (j : Joint.t F) (l : Limit.t F) (p : F) :
  dispatch_consistent j ->
  Joint.limit j = Some l ->
  f_lt (Limit.upper l) p = false ->
  f_lt p (Limit.lower l) = false ->
  (Joint.type j = Joint.REVOLUTE ->
   snd (Joint.calculate_transformation j p) =
   Return (Rotation_from_axis_and_angle (Axis.vector (Joint.current_axis j)) p
             (Frame.point (Joint.current_origin j)))) /\
  (Joint.type j = Joint.PRISMATIC ->
   snd (Joint.calculate_transformation j p) =
   Return (Translation_from_vector (Vector.mul (Axis.vector (Joint.current_axis j)) p))).
Proof.
  intros Hc Hl Hup Hlow. split; intros Ht.
  - rewrite (revolute_with_limit _ Hc Ht Hl), (clamp_in_range _ _ _ Hup Hlow). reflexivity.
  - rewrite (prismatic_with_limit _ Hc Ht Hl), (clamp_in_range _ _ _ Hup Hlow). reflexivity.
Qed.

(** X2. A position that is neither above [upper] nor below [lower] is
    applied as it is: the revolute joint rotates through it, the prismatic
    joint translates by it. *)
Theorem position_within_limit_is_applied (j : Joint.t F) (l : Limit.t F) (p : F) :
  dispatch_consistent j ->
  Joint.limit j = Some l ->
  f_lt (Limit.upper l) p = false ->
  f_lt p (Limit.lower l) = false ->
  (Joint.type j = Joint.REVOLUTE ->
   snd (Joint.calculate_transformation j p) =
   Return (Rotation_from_axis_and_angle (Axis.vector (Joint.current_axis j)) p
             (Frame.point (Joint.current_origin j)))) /\
  (Joint.type j = Joint.PRISMATIC ->
   snd (Joint.calculate_transformation j p) =
   Return (Translation_from_vector (Vector.mul (Axis.vector (Joint.current_axis j)) p))).
Proof. apply in_range_position_result. Qed.

(** X4. A continuous joint rotates through the position asked for, without
    clamping and without an error, whether or not it has a limit. *)
Theorem continuous_joint_is_not_clamped (j : Joint.t F) (p : F) :
  dispatch_consistent j ->
  Joint.type j = Joint.CONTINUOUS ->
  snd (Joint.calculate_transformation j p) =
  Return (Rotation_from_axis_and_angle (Axis.vector (Joint.current_axis j)) p
            (Frame.point (Joint.current_origin j))).
Proof.
  intros Hc Ht. rewrite (calculate_transformation_result _ Hc), Ht. reflexivity.
Qed.

(** What a call returns, whatever the stored target is. *)
Lemma calculate_transformation_target (j : Joint.t F) (q : F) :
  snd (Joint.calculate_transformation j q) =
  match match Joint._calculate_transformation j with
        | None => Joint.switcher (Joint.type j)
        | Some target => target
        end with
  | Some m => Joint.call m j q
  | None => Raise (TypeError "'NoneType' object is not callable")
  end.
Proof.
  unfold Joint.calculate_transformation.
  destruct (Joint._calculate_transformation j) as [[m | ] | ] eqn:E; simpl; rewrite ?E;
    try reflexivity.
  destruct (Joint.switcher (Joint.type j)); simpl;
    [ apply call_ignores_stored_target | reflexivity ].
Qed.

Lemma call_ignores_type (m : Joint.method) (j : Joint.t F) (t : Z) (p : F) :
  Joint.call m (JointMotion.set_type j t) p = Joint.call m j p.
Proof. destruct m; reflexivity. Qed.

(** X5. The dispatch target is resolved once.  After a first call, a later
    call returns what the joint would have returned before [type] was
    assigned: the new type is not looked at. *)
Theorem dispatch_is_resolved_once (j : Joint.t F) (p q : F) (t : Z) :
  snd (Joint.calculate_transformation
         (JointMotion.set_type (fst (Joint.calculate_transformation j p)) t) q) =
  snd (Joint.calculate_transformation j q).
Proof.
  rewrite calculate_transformation_state, !calculate_transformation_target.
  destruct (Joint._calculate_transformation j) as [[m | ] | ] eqn:E; simpl; rewrite ?E.
  - apply call_ignores_type.
  - reflexivity.
  - destruct (Joint.switcher (Joint.type j)); [ | reflexivity ].
    rewrite (call_ignores_type _ (Joint.set__calculate_transformation j _)).
    apply call_ignores_stored_target.
Qed.

End JointPosition.

Lemma limited_joint_stays_within_limit_witness :
  exists j : Joint.t float,
    Examples.revolute_joint = Return j /\
    exists angle : float,
      snd (@Joint.calculate_transformation _ Binary64.num j 7.5%float) =
      Return (Rotation_from_axis_and_angle (Axis.vector (Joint.current_axis j)) angle
                (Frame.point (Joint.current_origin j))) /\
      PrimFloat.ltb angle (-1)%float = false /\ PrimFloat.ltb 1%float angle = false.
Proof.
  eexists. split; [ vm_compute; reflexivity | ].
  refine (proj1 (@limited_joint_stays_within_limit float Binary64.num
                   _ (Limit.mk 0 0 (-1) 1 [])%float 7.5%float
                   Binary64_lt_irrefl _ _ _) _).
  - left. reflexivity.
  - reflexivity.
  - reflexivity.
  - reflexivity.
Defined.

Lemma position_within_limit_is_applied_witness :
  exists j : Joint.t float,
    Examples.revolute_joint = Return j /\
    snd (@Joint.calculate_transformation _ Binary64.num j 0.25%float) =
    Return (Rotation_from_axis_and_angle (Axis.vector (Joint.current_axis j)) 0.25%float
              (Frame.point (Joint.current_origin j))).
Proof.
  eexists. split; [ vm_compute; reflexivity | ].
  refine (proj1 (@position_within_limit_is_applied float Binary64.num
                   _ (Limit.mk 0 0 (-1) 1 [])%float 0.25%float _ _ _ _) _).
  - left. reflexivity.
  - reflexivity.
  - reflexivity.
  - reflexivity.
  - reflexivity.
Defined.

Lemma continuous_joint_is_not_clamped_witness :
  exists j : Joint.t float,
    Examples.continuous_joint = Return j /\
    snd (@Joint.calculate_transformation _ Binary64.num j 100%float) =
    Return (Rotation_from_axis_and_angle (Vector.mk 0 0 1)%float 100%float
              (Vector.mk 0 0 0)%float).
Proof.
  eexists. split; [ vm_compute; reflexivity | ].
  refine (@continuous_joint_is_not_clamped float Binary64.num _ 100%float _ _).
  - left. reflexivity.
  - reflexivity.
Defined.

(** X3. On binary64 floats a NaN position is not clamped: a revolute joint
    with any limit rotates through NaN, a prismatic one translates by NaN
    times its axis. *)
Theorem nan_position_is_not_clamped (j : Joint.t float) (l : Limit.t float) :
  dispatch_consistent j ->
  Joint.limit j = Some l ->
  (Joint.type j = Joint.REVOLUTE ->
   snd (@Joint.calculate_transformation _ Binary64.num j nan) =
   Return (Rotation_from_axis_and_angle (Axis.vector (Joint.current_axis j)) nan
             (Frame.point (Joint.current_origin j)))) /\
  (Joint.type j = Joint.PRISMATIC ->
   snd (@Joint.calculate_transformation _ Binary64.num j nan) =
   Return (Translation_from_vector
             (@Vector.mul _ Binary64.num (Axis.vector (Joint.current_axis j)) nan))).
Proof.
  intros Hc Hl.
  apply (in_range_position_result (num := Binary64.num) nan Hc Hl).
  - apply Binary64_lt_nan_r.
  - apply Binary64_lt_nan_l.
Qed.

Lemma nan_position_is_not_clamped_witness :
  exists j : Joint.t float,
    Examples.revolute_joint = Return j /\
    snd (@Joint.calculate_transformation _ Binary64.num j nan) =
    Return (Rotation_from_axis_and_angle (Axis.vector (Joint.current_axis j)) nan
              (Frame.point (Joint.current_origin j))).
Proof.
  eexists. split; [ vm_compute; reflexivity | ].
  refine (proj1 (@nan_position_is_not_clamped _ (Limit.mk 0 0 (-1) 1 [])%float _ _) _).
  - left. reflexivity.
  - reflexivity.
  - reflexivity.
Defined.

(** ** Joint: construction *)



Section JointInit.
Context {F : Type} {num : PyFloat F} {geo : Geometry F} {txt : FloatText F}.


(** X7. A supported type can be given by name or by index: both build the
    same joint. *)
Theorem init_by_name_or_index
    name (s : string) (i : Z) parent child origin axis calibration dynamics limit
    safety_controller mimic kw :
  (0 <= i)%Z ->
  nth_error Joint.SUPPORTED_TYPES (Z.to_nat i) = Some s ->
  Joint.init name (inl s) parent child origin axis calibration dynamics limit
             safety_controller mimic kw =
  Joint.init name (inr i) parent child origin axis calibration dynamics limit
             safety_controller mimic kw.
Proof.
  intros Hi Hn.
  assert (Joint.index_of s Joint.SUPPORTED_TYPES = Some i) as E.
  { assert (Z.to_nat i < 6)%nat as Hlt
        by (apply (nth_error_Some Joint.SUPPORTED_TYPES); rewrite Hn; discriminate).
    assert (i = 0 \/ i = 1 \/ i = 2 \/ i = 3 \/ i = 4 \/ i = 5)%Z as Hcases by lia.
    destruct Hcases as [-> | [-> | [-> | [-> | [-> | ->]]]]];
      simpl in Hn; injection Hn as <-; reflexivity. }
  unfold Joint.init. rewrite E. reflexivity.
Qed.

End JointInit.

Lemma init_by_name_or_index_witness :
  Examples.prismatic_joint_without_limit =
  @Joint.init _ Binary64.num Binary64.geo Binary64.txt
    "Pr" (inr Joint.PRISMATIC) (inr "base"%string) (inr "arm"%string) None None
    None None None None None [].
Proof.
  refine (@init_by_name_or_index float Binary64.num Binary64.geo Binary64.txt
            _ "prismatic"%string 2%Z _ _ _ _ _ _ _ _ _ _ _ _).
  - lia.
  - reflexivity.
Defined.


(** ** Joint: scaling *)

Section JointScale.
Context {F : Type} {num : PyFloat F}.

(** X9. For a joint that is not scalable, or has a limit, [scale] returns
    normally; it multiplies the point of [current_origin] by the factor,
    multiplies the bounds of the limit when the joint is scalable, and leaves
    everything else, the static [origin] included, as it was. *)
Theorem scale_with_limit_available (j : Joint.t F) (factor : F) :
  Joint.is_scalable j = false \/ Joint.limit j <> None ->
  let j' := fst (Joint.scale j factor) in
  snd (Joint.scale j factor) = Return tt /\
  Frame.point (Joint.current_origin j') =
  Vector.mul (Frame.point (Joint.current_origin j)) factor /\
  Frame.xaxis (Joint.current_origin j') = Frame.xaxis (Joint.current_origin j) /\
  Frame.yaxis (Joint.current_origin j') = Frame.yaxis (Joint.current_origin j) /\
  Joint.limit j' =
  (if Joint.is_scalable j
   then match Joint.limit j with
        | Some l => Some (Limit.mk (Limit.effort l) (Limit.velocity l)
                                   (f_mul (Limit.lower l) factor)
                                   (f_mul (Limit.upper l) factor) (Limit.attr l))
        | None => None
        end
   else Joint.limit j) /\
  Joint.origin j' = Joint.origin j /\
  Joint.set_limit (Joint.set_current_origin j' (Joint.current_origin j)) (Joint.limit j) = j.
Proof.
  intros H. cbv zeta.
  destruct (scale_cases j factor) as (Ho & Hrest & Hns & Hs & _). cbv zeta in *.
  split; [ | split; [ | split; [ | split; [ | split; [ | split ] ] ] ] ].
  - destruct (Joint.is_scalable j) eqn:Es.
    + destruct (Joint.limit j) as [l | ] eqn:El; [ apply (Hs l eq_refl eq_refl) | ].
      destruct H as [H | H]; [ discriminate | contradiction ].
    + apply (Hns eq_refl).
  - rewrite Ho. reflexivity.
  - rewrite Ho. reflexivity.
  - rewrite Ho. reflexivity.
  - destruct (Joint.is_scalable j) eqn:Es.
    + destruct (Joint.limit j) as [l | ] eqn:El.
      * rewrite (proj2 (Hs l eq_refl eq_refl)). reflexivity.
      * destruct H as [H | H]; [ discriminate | contradiction ].
    + apply (Hns eq_refl).
  - rewrite <- Hrest at 2. reflexivity.
  - exact Hrest.
Qed.

End JointScale.

Lemma scale_with_limit_available_witness :
  exists j : Joint.t float,
    Examples.revolute_joint = Return j /\
    snd (@Joint.scale _ Binary64.num j 2%float) = Return tt /\
    Joint.limit (fst (@Joint.scale _ Binary64.num j 2%float)) = Joint.limit j.
Proof.
  eexists. split; [ vm_compute; reflexivity | ].
  pose proof (@scale_with_limit_available float Binary64.num
                (Joint.mk "J" 0 (ParentLink.mk "base") (ChildLink.mk "arm")
                   (@Frame.from_euler_angles_zero _ Binary64.num)
                   (Axis.mk 0 0 1 [])%float None None (Some (Limit.mk 0 0 (-1) 1 [])%float)
                   None None [] None 0%float (@Frame.from_euler_angles_zero _ Binary64.num)
                   (Axis.mk 0 0 1 [])%float None)
                2%float (or_introl eq_refl)) as H.
  cbv zeta in H. destruct H as (Hr & _ & _ & _ & Hl & _).
  split; [ exact Hr | exact Hl ].
Defined.

(** X8. In real arithmetic, scaling by a non-zero factor and then by its
    inverse gives the joint back: [current_origin] and, for a scalable joint,
    the bounds of the limit are restored, and both calls return normally. *)
Theorem scale_then_inverse_restores (j : Joint.t R) (factor : R) :
  factor <> 0%R ->
  Joint.is_scalable j = false \/ Joint.limit j <> None ->
  let j1 := fst (@Joint.scale _ Exact.num j factor) in
  snd (@Joint.scale _ Exact.num j factor) = Return tt /\
  snd (@Joint.scale _ Exact.num j1 (1 / factor)%R) = Return tt /\
  fst (@Joint.scale _ Exact.num j1 (1 / factor)%R) = j.
Proof.
  intros Hf H. cbv zeta.
  destruct j as [n ty pa ch o a ca dy li sc mi kw cl po [[px py pz] xa ya] cax ct].
  unfold Joint.scale, Joint.is_scalable in *. simpl in *.
  assert (forall v : R, (v * factor * (1 / factor) = v)%R) as Hinv
      by (intros v; field; exact Hf).
  destruct ((ty =? Joint.PLANAR)%Z || (ty =? Joint.PRISMATIC)%Z)%bool eqn:Es.
  - destruct li as [[ef ve lo up at'] | ].
    + simpl. rewrite Es. simpl. unfold Frame.scale, Vector.mul, Limit.scale,
        Joint.set_limit, Joint.set_current_origin. simpl.
      rewrite !Hinv. repeat split.
    + destruct H as [H | H]; [ discriminate | contradiction ].
  - simpl. rewrite Es. simpl. unfold Frame.scale, Vector.mul, Joint.set_current_origin. simpl.
    rewrite !Hinv. repeat split.
Qed.

Lemma scale_then_inverse_restores_witness :
  let j := Joint.mk "S" Joint.PRISMATIC (ParentLink.mk "base") (ChildLink.mk "arm")
             (Frame.mk (Vector.mk 1 2 3) (Vector.mk 1 0 0) (Vector.mk 0 1 0))%R
             (Axis.mk 1 0 0 [])%R None None (Some (Limit.mk 0 0 (-1) 4 [])%R)
             None None [] None 0%R
             (Frame.mk (Vector.mk 1 2 3) (Vector.mk 1 0 0) (Vector.mk 0 1 0))%R
             (Axis.mk 1 0 0 [])%R None in
  fst (@Joint.scale _ Exact.num (fst (@Joint.scale _ Exact.num j 1000%R)) (1 / 1000)%R) = j.
Proof.
  cbv zeta.
  refine (proj2 (proj2 (@scale_then_inverse_restores _ 1000%R _ _))).
  - lra.
  - right. discriminate.
Defined.

(** ** Mimic chains *)

(** X14. In real arithmetic two mimic laws compose to a mimic law: the joint
    that mimics (with multiplier [k2], offset [o2]) a joint that mimics
    (with [k1], [o1]) gets the position a single mimic with multiplier
    [k2 * k1] and offset [k2 * o1 + o2] computes. *)
Theorem Mimic_chain_is_a_mimic (m1 m2 : Mimic.t R) (x : R) :
  @Mimic.calculate_position _ Exact.num m2 (@Mimic.calculate_position _ Exact.num m1 x) =
  @Mimic.calculate_position _ Exact.num
    (Mimic.mk (Mimic.joint m1) (Mimic.multiplier m2 * Mimic.multiplier m1)%R
              (Mimic.multiplier m2 * Mimic.offset m1 + Mimic.offset m2)%R) x.
Proof. unfold Mimic.calculate_position. simpl. ring. Qed.

(** ** Joint: transform and _create *)

Section JointFrames.
Context {F T : Type} {num : PyFloat F} {kin : Kinematics F T}.

(** X15. [transform] and [_create] write [current_origin] and
    [current_axis] only.  [_create] computes [current_origin] from the static
    [origin], so repeating it with the same transformation gives the same
    [current_origin]; it transforms [current_axis] by the transformation of
    the new [current_origin], starting from the axis it finds, so repeating
    it transforms the axis again. *)
Theorem create_recomputes_origin_from_static (j : Joint.t F) (t : T) :
  let j1 := JointMotion._create j t in
  let j2 := JointMotion._create j1 t in
  Joint.current_origin j1 = Frame_transformed (Joint.origin j) t /\
  Joint.current_origin j2 = Joint.current_origin j1 /\
  Axis.vector (Joint.current_axis j1) =
  AxisMotion.transformed (Joint.current_axis j)
    (Transformation_from_frame (Frame_transformed (Joint.origin j) t)) /\
  Axis.vector (Joint.current_axis j2) =
  AxisMotion.transformed (Joint.current_axis j1)
    (Transformation_from_frame (Frame_transformed (Joint.origin j) t)) /\
  Joint.current_origin (JointMotion.transform j t) =
  Frame_transformed (Joint.current_origin j) t /\
  Axis.vector (Joint.current_axis (JointMotion.transform j t)) =
  AxisMotion.transformed (Joint.current_axis j) t /\
  JointMotion.set_current_axis
    (Joint.set_current_origin j1 (Joint.current_origin j)) (Joint.current_axis j) = j /\
  JointMotion.set_current_axis
    (Joint.set_current_origin (JointMotion.transform j t) (Joint.current_origin j))
    (Joint.current_axis j) = j.
Proof.
  cbv zeta. repeat split; destruct j; reflexivity.
Qed.

End JointFrames.

Section DispatchInvariant.
Context {F : Type} {num : PyFloat F}.

(** X16. The stored dispatch target stays the one of the joint's type: a
    joint [Joint.__init__] returns has none, and [calculate_transformation]
    and [scale] keep a consistent one consistent. *)
Theorem dispatch_consistency_is_kept :
  (forall (geo : Geometry F) (txt : FloatText F)
          name type parent child origin axis calibration dynamics limit
          safety_controller mimic kw (j : Joint.t F),
      Joint.init name type parent child origin axis calibration dynamics limit
                 safety_controller mimic kw = Return j ->
      dispatch_consistent j) /\
  (forall (j : Joint.t F) (p factor : F),
      dispatch_consistent j ->
      dispatch_consistent (fst (Joint.calculate_transformation j p)) /\
      dispatch_consistent (fst (Joint.scale j factor)) /\
      dispatch_consistent
        (fst (Joint.calculate_transformation (fst (Joint.scale j factor)) p))).
Proof.
  split.
  - intros geo txt. intros. eapply init_consistent; eassumption.
  - intros j p factor H. repeat split.
    + apply calculate_transformation_consistent; exact H.
    + apply scale_consistent; exact H.
    + apply calculate_transformation_consistent, scale_consistent; exact H.
Qed.

End DispatchInvariant.

Lemma dispatch_consistency_is_kept_witness :
  exists j : Joint.t float,
    Examples.revolute_joint = Return j /\
    dispatch_consistent
      (fst (@Joint.calculate_transformation _ Binary64.num
              (fst (@Joint.scale _ Binary64.num j 2%float)) 0.5%float)).
Proof.
  eexists. split; [ vm_compute; reflexivity | ].
  apply (proj2 (@dispatch_consistency_is_kept float Binary64.num) _ 0.5%float 2%float).
  refine (proj1 (@dispatch_consistency_is_kept float Binary64.num)
            Binary64.geo Binary64.txt "J"%string (inl "revolute"%string) (inr "base"%string)
            (inr "arm"%string) None
            (Some (@Axis.init _ Binary64.num Binary64.geo (Vector.mk 0 0 1)%float []))
            None None (Some (Limit.mk 0 0 (-1) 1 [])%float) None None [] _ _).
  vm_compute. reflexivity.
Defined.

(** ** Dictionaries *)

Section DictFacts.
Context {F : Type} {num : PyFloat F}.

Lemma get_set (k k' : string) (v : Dict.value F) (d : Dict.t F) :
  Dict.get k (Dict.set k' v d) = if String.eqb k k' then Some v else Dict.get k d.
Proof.
  induction d as [ | [k'' v''] d IH]; simpl.
  - reflexivity.
  - destruct (String.eqb_spec k' k'') as [-> | Hne]; simpl.
    + destruct (String.eqb k k''); reflexivity.
    + destruct (String.eqb_spec k k'') as [-> | Hne'].
      * destruct (String.eqb_spec k'' k') as [E | _]; [ congruence | reflexivity ].
      * exact IH.
Qed.

Lemma get_update (k : string) (d other : Dict.t F) :
  NoDup (map fst other) ->
  Dict.get k (Dict.update d other) =
  match Dict.get k other with
  | Some v => Some v
  | None => Dict.get k d
  end.
Proof.
  revert d. induction other as [ | [k' v'] other IH]; intros d Hnd; simpl.
  - reflexivity.
  - inversion Hnd as [ | ? ? Hnotin Hnd']; subst.
    rewrite (IH _ Hnd'), get_set.
    destruct (String.eqb_spec k k') as [-> | Hne]; [ | reflexivity ].
    destruct (Dict.get k' other) as [v | ] eqn:E; [ | reflexivity ].
    exfalso. apply Hnotin. clear - E.
    induction other as [ | [k'' v''] other IHo]; simpl in *; [ discriminate | ].
    destruct (String.eqb_spec k' k'') as [-> | Hne]; [ left; reflexivity | right; auto ].
Qed.

Lemma of_kwargs_keys (kw : kwargs) : map fst (@Dict.of_kwargs F kw) = map fst kw.
Proof. unfold Dict.of_kwargs. rewrite map_map. reflexivity. Qed.

(** X12. The attributes of the URDF element of a limit: the entries of
    [attr] come first in precedence; otherwise [velocity] and [effort] are
    always there, [lower] and [upper] only when they are not zero, and no
    other key. *)
Theorem Limit_urdf_attributes (l : Limit.t F) (k : string) :
  NoDup (map fst (Limit.attr l)) ->
  tag (LimitIO.get_urdf_element l) = "limit"%string /\
  Dict.get k (attributes (LimitIO.get_urdf_element l)) =
  match Dict.get k (Dict.of_kwargs (Limit.attr l)) with
  | Some v => Some v
  | None =>
      if String.eqb k "velocity" then Some (Dict.Num (Limit.velocity l))
      else if String.eqb k "effort" then Some (Dict.Num (Limit.effort l))
      else if String.eqb k "lower"
           then (if f_ne (Limit.lower l) f_zero then Some (Dict.Num (Limit.lower l)) else None)
      else if String.eqb k "upper"
           then (if f_ne (Limit.upper l) f_zero then Some (Dict.Num (Limit.upper l)) else None)
      else None
  end.
Proof.
  intros Hnd. split; [ reflexivity | ].
  unfold LimitIO.get_urdf_element. simpl attributes.
  rewrite get_update by (rewrite of_kwargs_keys; exact Hnd).
  destruct (Dict.get k (Dict.of_kwargs (Limit.attr l))); [ reflexivity | ].
  rewrite !get_set.
  destruct (String.eqb k "velocity"); [ reflexivity | ].
  destruct (String.eqb k "effort"); [ reflexivity | ].
  unfold Dict.filter_truthy. simpl.
  destruct (f_ne (Limit.lower l) f_zero), (f_ne (Limit.upper l) f_zero); simpl;
    destruct (String.eqb_spec k "lower") as [-> | Hl]; simpl; try reflexivity;
    destruct (String.eqb k "upper"); reflexivity.
Qed.

(** X13. The URDF element of a mimic always names the joint, and leaves out
    [multiplier] exactly when it equals [1.0] and [offset] exactly when it
    equals [0.0], the defaults of the constructor: the constructor called
    with the attributes builds a mimic with the same joint and, field by
    field, the same number or the default the number is equal to. *)
Theorem Mimic_urdf_omits_defaults (m : Mimic.t F) :
  let a := attributes (MimicIO.get_urdf_element m) in
  tag (MimicIO.get_urdf_element m) = "mimic"%string /\
  Dict.get "joint" a = Some (Dict.Str (Mimic.joint m)) /\
  Dict.get "multiplier" a =
  (if f_ne (Mimic.multiplier m) f_one then Some (Dict.Num (Mimic.multiplier m)) else None) /\
  Dict.get "offset" a =
  (if f_ne (Mimic.offset m) f_zero then Some (Dict.Num (Mimic.offset m)) else None) /\
  exists m' : Mimic.t F,
    MimicIO.init_kwargs a = Dict.Found m' /\
    Mimic.joint m' = Mimic.joint m /\
    (Mimic.multiplier m' = Mimic.multiplier m \/
     Mimic.multiplier m' = f_one /\ f_eqb (Mimic.multiplier m) f_one = true) /\
    (Mimic.offset m' = Mimic.offset m \/
     Mimic.offset m' = f_zero /\ f_eqb (Mimic.offset m) f_zero = true).
Proof.
  cbv zeta. unfold MimicIO.get_urdf_element, MimicIO.init_kwargs, f_ne. simpl attributes.
  destruct (f_eqb (Mimic.multiplier m) f_one) eqn:Em,
           (f_eqb (Mimic.offset m) f_zero) eqn:Eo; simpl;
    (split; [ reflexivity | ]); (split; [ reflexivity | ]);
    (split; [ reflexivity | ]); (split; [ reflexivity | ]);
    eexists; (split; [ reflexivity | ]); simpl; (split; [ reflexivity | ]); split; auto.
Qed.

(** X10. [Mimic.from_data] undoes [data], and the setter of [data]
    overwrites every field; a mimic read from a dictionary has that
    dictionary's entries; a [KeyError] names a key the dictionary does not
    have, and a dictionary without ["joint"] raises it for ["joint"]. *)
Theorem Mimic_data_round_trip (m : Mimic.t F) :
  MimicIO.from_data (MimicIO.data m) = Dict.Found m /\
  (forall self : Mimic.t F, MimicIO.set_data self (MimicIO.data m) = Dict.Found m) /\
  (forall (d : Dict.t F) (m' : Mimic.t F),
      MimicIO.from_data d = Dict.Found m' ->
      Dict.get "joint" d = Some (Dict.Str (Mimic.joint m')) /\
      Dict.get "multiplier" d = Some (Dict.Num (Mimic.multiplier m')) /\
      Dict.get "offset" d = Some (Dict.Num (Mimic.offset m'))) /\
  (forall (d : Dict.t F) (k : string),
      MimicIO.from_data d = Dict.KeyError k ->
      Dict.get k d = None /\
      (k = "joint" \/ k = "multiplier" \/ k = "offset")%string) /\
  (forall d : Dict.t F,
      Dict.get "joint" d = None -> MimicIO.from_data d = Dict.KeyError "joint").
Proof.
  split; [ destruct m; reflexivity | ].
  split; [ intros self; destruct m; reflexivity | ].
  unfold MimicIO.from_data, MimicIO.set_data, Dict.bind, Dict.get_str, Dict.get_num.
  split; [ | split ].
  - intros d m'.
    destruct (Dict.get "joint" d) as [[s | x] | ]; try discriminate.
    destruct (Dict.get "multiplier" d) as [[s' | x'] | ]; try discriminate.
    destruct (Dict.get "offset" d) as [[s'' | x''] | ]; try discriminate.
    intros [= <-]. repeat split.
  - intros d k.
    destruct (Dict.get "joint" d) as [[s | x] | ] eqn:Ej; try discriminate.
    + destruct (Dict.get "multiplier" d) as [[s' | x'] | ] eqn:Em; try discriminate.
      * destruct (Dict.get "offset" d) as [[s'' | x''] | ] eqn:Eo; try discriminate.
        intros [= <-]. split; [ exact Eo | auto ].
      * intros [= <-]. split; [ exact Em | auto ].
    + intros [= <-]. split; [ exact Ej | auto ].
  - intros d Hj. rewrite Hj. reflexivity.
Qed.

(** X11. [SafetyController.from_data] undoes [data]; a controller read from
    a dictionary has that dictionary's entries; a [KeyError] names a key the
    dictionary does not have, and a dictionary without ["k_velocity"] raises
    it for ["k_velocity"]. *)
Theorem SafetyController_data_round_trip (c : SafetyController.t F) :
  SafetyControllerIO.from_data (SafetyControllerIO.data c) = Dict.Found c /\
  (forall (d : Dict.t F) (c' : SafetyController.t F),
      SafetyControllerIO.from_data d = Dict.Found c' ->
      Dict.get "k_velocity" d = Some (Dict.Num (SafetyController.k_velocity c')) /\
      Dict.get "k_position" d = Some (Dict.Num (SafetyController.k_position c')) /\
      Dict.get "soft_lower_limit" d = Some (Dict.Num (SafetyController.soft_lower_limit c')) /\
      Dict.get "soft_upper_limit" d = Some (Dict.Num (SafetyController.soft_upper_limit c'))) /\
  (forall (d : Dict.t F) (k : string),
      SafetyControllerIO.from_data d = Dict.KeyError k -> Dict.get k d = None) /\
  (forall d : Dict.t F,
      Dict.get "k_velocity" d = None ->
      SafetyControllerIO.from_data d = Dict.KeyError "k_velocity").
Proof.
  split; [ destruct c; reflexivity | ].
  unfold SafetyControllerIO.from_data, SafetyControllerIO.set_data,
    Dict.bind, Dict.get_str, Dict.get_num.
  split; [ | split ].
  - intros d c'.
    destruct (Dict.get "k_velocity" d) as [[s | x] | ]; try discriminate.
    destruct (Dict.get "k_position" d) as [[s1 | x1] | ]; try discriminate.
    destruct (Dict.get "soft_lower_limit" d) as [[s2 | x2] | ]; try discriminate.
    destruct (Dict.get "soft_upper_limit" d) as [[s3 | x3] | ]; try discriminate.
    intros [= <-]. repeat split.
  - intros d k.
    destruct (Dict.get "k_velocity" d) as [[s | x] | ] eqn:E0; try discriminate;
      [ | intros [= <-]; exact E0 ].
    destruct (Dict.get "k_position" d) as [[s1 | x1] | ] eqn:E1; try discriminate;
      [ | intros [= <-]; exact E1 ].
    destruct (Dict.get "soft_lower_limit" d) as [[s2 | x2] | ] eqn:E2; try discriminate;
      [ | intros [= <-]; exact E2 ].
    destruct (Dict.get "soft_upper_limit" d) as [[s3 | x3] | ] eqn:E3; try discriminate.
    intros [= <-]. exact E3.
  - intros d Hk. rewrite Hk. reflexivity.
Qed.

End DictFacts.

Lemma Limit_urdf_attributes_witness :
  let l := Limit.mk 10%float 2%float 0%float 1.5%float [("damping"%string, "0.1"%string)] in
  Dict.get "lower" (attributes (@LimitIO.get_urdf_element _ Binary64.num l)) = None /\
  Dict.get "upper" (attributes (@LimitIO.get_urdf_element _ Binary64.num l))
  = Some (Dict.Num 1.5%float) /\
  Dict.get "damping" (attributes (@LimitIO.get_urdf_element _ Binary64.num l))
  = Some (Dict.Str "0.1"%string).
Proof.
  cbv zeta.
  assert (NoDup (map fst (Limit.attr (Limit.mk 10%float 2%float 0%float 1.5%float
                                        [("damping"%string, "0.1"%string)])))) as Hnd
      by (simpl; constructor; [ intros [] | constructor ]).
  split; [ | split ].
  - exact (proj2 (@Limit_urdf_attributes float Binary64.num _ "lower"%string Hnd)).
  - exact (proj2 (@Limit_urdf_attributes float Binary64.num _ "upper"%string Hnd)).
  - exact (proj2 (@Limit_urdf_attributes float Binary64.num _ "damping"%string Hnd)).
Defined.

Lemma Mimic_data_round_trip_witness :
  @MimicIO.from_data float Binary64.num
    [("multiplier"%string, Dict.Num 2%float); ("offset"%string, Dict.Num 0.5%float)]
  = Dict.KeyError "joint".
Proof.
  apply (proj2 (proj2 (proj2 (proj2
           (@Mimic_data_round_trip float Binary64.num (Mimic.mk "A" 2%float 0.5%float)))))).
  reflexivity.
Defined.

Lemma SafetyController_data_round_trip_witness :
  @SafetyControllerIO.from_data float Binary64.num
    [("k_position"%string, Dict.Num 2%float)]
  = Dict.KeyError "k_velocity".
Proof.
  apply (proj2 (proj2 (proj2
           (@SafetyController_data_round_trip float Binary64.num
              (SafetyController.mk 1%float 0%float 0%float 0%float))))).
  reflexivity.
Defined.

(** X17. The attributes of the URDF element of a safety controller:
    [k_velocity] is always there, [k_position], [soft_lower_limit] and
    [soft_upper_limit] only when they are not zero, and no other key. *)
Theorem SafetyController_urdf_attributes
    (F : Type) (num : PyFloat F) (c : SafetyController.t F) (k : string) :
  tag (SafetyControllerIO.get_urdf_element c) = "safety_controller"%string /\
  Dict.get k (attributes (SafetyControllerIO.get_urdf_element c)) =
  if String.eqb k "k_velocity" then Some (Dict.Num (SafetyController.k_velocity c))
  else if String.eqb k "k_position"
       then (if f_ne (SafetyController.k_position c) f_zero
             then Some (Dict.Num (SafetyController.k_position c)) else None)
  else if String.eqb k "soft_lower_limit"
       then (if f_ne (SafetyController.soft_lower_limit c) f_zero
             then Some (Dict.Num (SafetyController.soft_lower_limit c)) else None)
  else if String.eqb k "soft_upper_limit"
       then (if f_ne (SafetyController.soft_upper_limit c) f_zero
             then Some (Dict.Num (SafetyController.soft_upper_limit c)) else None)
  else None.
Proof.
  split; [ reflexivity | ].
  unfold SafetyControllerIO.get_urdf_element. simpl attributes.
  rewrite get_set.
  destruct (String.eqb k "k_velocity"); [ reflexivity | ].
  unfold Dict.filter_truthy. simpl.
  destruct (f_ne (SafetyController.k_position c) f_zero),
           (f_ne (SafetyController.soft_lower_limit c) f_zero),
           (f_ne (SafetyController.soft_upper_limit c) f_zero); simpl;
    destruct (String.eqb_spec k "k_position") as [-> | H1]; simpl; try reflexivity;
    destruct (String.eqb_spec k "soft_lower_limit") as [-> | H2]; simpl; try reflexivity;
    destruct (String.eqb k "soft_upper_limit"); reflexivity.
Qed.
